(** * Constructo storefront: the checkout and order-placement flow

    A shallow embedding of [frontend/app/checkout.tsx] together with the
    cart store ([src/store/cartStore.ts]) and the REST wrappers it calls
    ([src/api/orders.ts], [src/api/payments.ts]).

    Asynchronous code is embedded in a state-and-exception monad over a
    [World] that holds the cart store, the component's [loading] flag, the
    callbacks the browser still has to run and the chronological trace of
    everything the flow did to the outside (requests, settled promises,
    payment-UI hand-offs, alerts, cart clearing).  The collaborators the
    flow awaits (REST backend, Razorpay widgets) are parameters, gathered
    in an [Env]. *)

From Stdlib Require Import ZArith List String Bool Arith Lia.
Import ListNotations.

Open Scope string_scope.
Open Scope Z_scope.

(* ================================================================= *)
(** ** JavaScript values *)

Module Js.

(** A thrown value.  The flow only ever reads [error.code],
    [error.description] and [error.response?.data?.detail]. *)
Record Error : Type := mkError {
  code : option string;
  description : option string;
  detail : option string
}.

(** An awaited promise: rejected with an error or resolved with a value. *)
Definition Result (A : Type) : Type := (Error + A)%type.

(** Truthiness of a string: only [''] is falsy. *)
Definition truthy (s : string) : bool :=
  match s with
  | EmptyString => false
  | String _ _ => true
  end.

(** [x || d] where [x] is a string or [undefined]. *)
Definition or_else (x : option string) (d : string) : string :=
  match x with
  | Some s => if truthy s then s else d
  | None => d
  end.

(** [s.slice(0, n)] *)
Definition slice0 (n : nat) (s : string) : string := substring 0 n s.

(** [x !== s] *)
Definition strict_neq (x : option string) (s : string) : bool :=
  match x with
  | Some c => negb (String.eqb c s)
  | None => true
  end.

End Js.

(* ================================================================= *)
(** ** Data model *)

(** [interface ShippingAddress] of [src/api/orders.ts]. *)
Record ShippingAddress : Type := mkAddress {
  full_name : string;
  phone : string;
  address_line1 : string;
  address_line2 : option string;
  city : string;
  state : string;
  pincode : string
}.

(** [useState<'cod' | 'razorpay'>]: the two literals the component's
    payment-method state ranges over. *)
Inductive PaymentMethod : Type := cod | razorpay.

(** The literal a [PaymentMethod] stands for; this is what goes on the wire. *)
Definition literal (m : PaymentMethod) : string :=
  match m with
  | cod => "cod"
  | razorpay => "razorpay"
  end.

Module Orders.

Record OrderItem : Type := mkOrderItem {
  product_id : string;
  product_name : string;
  price : Z;
  quantity : Z
}.

Record Order : Type := mkOrder {
  id : string;
  user_id : string;
  items : list OrderItem;
  shipping_address : ShippingAddress;
  payment_method : string;
  subtotal : Z;
  shipping_fee : Z;
  total : Z;
  status : string;
  created_at : string
}.

Record CreateOrderData : Type := mkCreateOrderData {
  data_shipping_address : ShippingAddress;
  data_payment_method : string
}.

End Orders.

Module Payments.

Record RazorpayOrder : Type := mkRazorpayOrder {
  razorpay_order_id : string;
  amount : Z;
  currency : string;
  key_id : string
}.

Record VerifyPaymentData : Type := mkVerify {
  v_razorpay_order_id : string;
  v_razorpay_payment_id : string;
  v_razorpay_signature : string;
  v_order_id : string
}.

(** What the payment UI hands back on a successful payment. *)
Record Response : Type := mkResponse {
  r_razorpay_order_id : string;
  r_razorpay_payment_id : string;
  r_razorpay_signature : string
}.

End Payments.

(* ================================================================= *)
(** ** The cart store ([src/store/cartStore.ts]) *)

Module CartStore.

Record Product : Type := mkProduct {
  id : string;
  name : string;
  price : Z;
  image : string;
  brand : option string
}.

Record CartItem : Type := mkCartItem {
  product_id : string;
  quantity : Z;
  product : Product
}.

Record CartState : Type := mkCart {
  items : list CartItem;
  total : Z
}.

(** The store as [create] builds it. *)
Definition initial : CartState := {| items := []; total := 0 |}.

Definition setCart (items : list CartItem) (total : Z) (_ : CartState) : CartState :=
  {| items := items; total := total |}.

Definition clearCart (_ : CartState) : CartState :=
  {| items := []; total := 0 |}.

End CartStore.

(* ================================================================= *)
(** ** Order totals ([checkout.tsx], lines 39-40) *)

(** [const shippingFee = total > 5000 ? 0 : 99]

    Amounts are whole rupees; [Z] stands for the JavaScript numbers in the
    range where they are exact. *)
Definition shippingFee (total : Z) : Z :=
  if total >? 5000 then 0 else 99.

(** [const grandTotal = total + shippingFee] *)
Definition grandTotal (total : Z) : Z := total + shippingFee total.

(* ================================================================= *)
(** ** The outside world *)

(** [Platform.OS === 'web'] or not. *)
Inductive Platform : Type := web | native.

Module Razorpay.

(** The function stored under [options.handler] on the web path.  It is a
    closure of [handleRazorpayPayment] over [orderId]; the closure is
    kept as data and run by [Checkout.handler]. *)
Inductive Handler : Type := VerifyAndReconcile (orderId : string).

(** The options object handed to the payment UI.  The web object has a
    [handler] and no [image]; the native one has an [image] and no
    [handler]. *)
Record Options : Type := mkOptions {
  key : string;
  amount : Z;
  currency : string;
  name : string;
  description : string;
  image : option string;
  order_id : string;
  handler : option Handler;
  prefill_name : string;
  prefill_contact : string;
  theme_color : string
}.

End Razorpay.

(** Request bodies of the three POSTs of the flow. *)
Inductive Body : Type :=
| OrderBody (data : Orders.CreateOrderData)
| AmountBody (amount : Z)
| VerifyBody (data : Payments.VerifyPaymentData).

(** The one button the success alerts carry: [router.replace(route)]. *)
Inductive Button : Type := ViewOrder (route : string).

(** What the flow does to the outside, and what the outside answers. *)
Inductive Event : Type :=
| Post (path : string) (body : Body)          (* api.post(path, body) *)
| Resolved (path : string)                    (* the awaited POST resolved *)
| Rejected (path : string) (e : Js.Error)     (* the awaited POST rejected *)
| ScriptAppended (src : string)               (* document.body.appendChild(script) *)
| Open (p : Platform) (o : Razorpay.Options)  (* rzp.open() / RazorpayCheckout.open(options) *)
| Paid (p : Platform) (r : Payments.Response) (* the payment UI returned a success result *)
| NotPaid (p : Platform) (e : Js.Error)       (* the payment UI ended with cancellation or an error *)
| ClearCart                                   (* useCartStore.clearCart() *)
| Alert (title message : string) (buttons : list Button)
| SetLoading (b : bool)
| ConsoleLog (label : string).

(** Callbacks registered with the browser that have not run yet. *)
Inductive Task : Type := ScriptOnload (o : Razorpay.Options).

Record World : Type := mkWorld {
  store : CartStore.CartState;
  loading : bool;
  pending : list Task;
  trace : list Event
}.

(** A world in which nothing has happened yet. *)
Definition fresh (cart : CartStore.CartState) : World :=
  {| store := cart; loading := false; pending := []; trace := [] |}.

(** The collaborators.  [./client] (the HTTP client behind [api.post]) and
    the two Razorpay bindings are not part of the flow: each is a
    parameter giving the outcome of the call.

    [checkout_js] is Razorpay's checkout.js: it calls [options.handler]
    with the response on a successful payment and calls nothing the flow
    registered otherwise. *)
Record Env : Type := mkEnv {
  OS : Platform;
  post_orders : Orders.CreateOrderData -> Js.Result Orders.Order;
  post_payments_create_order : Z -> Js.Result Payments.RazorpayOrder;
  post_payments_verify : Payments.VerifyPaymentData -> Js.Result unit;
  window_defined : bool;
  script_loads : bool;
  checkout_js : Razorpay.Options -> Js.Result Payments.Response;
  require_razorpay : Js.Result unit;
  RazorpayCheckout_open : Razorpay.Options -> Js.Result Payments.Response
}.

(* ================================================================= *)
(** ** Async code as a state-and-exception monad *)

Definition M (A : Type) : Type := World -> Js.Result A * World.

Definition ret {A} (a : A) : M A := fun w => (inr a, w).

Definition throw {A} (e : Js.Error) : M A := fun w => (inl e, w).

Definition bind {A B} (m : M A) (k : A -> M B) : M B :=
  fun w =>
    match m w with
    | (inr a, w') => k a w'
    | (inl e, w') => (inl e, w')
    end.

Declare Scope js_scope.
Delimit Scope js_scope with js.
Notation "x <- m ;; k" := (bind m (fun x => k))
  (at level 100, m at next level, right associativity) : js_scope.
Notation "m ;; k" := (bind m (fun _ => k))
  (at level 100, right associativity) : js_scope.
Open Scope js_scope.

(** [try { body } catch (error) { handler }] *)
Definition try_catch {A} (body : M A) (handler : Js.Error -> M A) : M A :=
  fun w =>
    match body w with
    | (inl e, w') => handler e w'
    | r => r
    end.

(** [try { body } finally { fin }], for a [fin] that does not throw. *)
Definition try_finally {A} (body : M A) (fin : M unit) : M A :=
  fun w =>
    let (r, w') := body w in
    (r, snd (fin w')).

Definition emit (e : Event) : M unit :=
  fun w => (inr tt, {| store := store w; loading := loading w;
                       pending := pending w; trace := trace w ++ [e] |}).

(** [await p] for a promise whose outcome is [r]. *)
Definition await {A} (path : string) (r : Js.Result A) : M A :=
  match r with
  | inr a => emit (Resolved path) ;; ret a
  | inl e => emit (Rejected path e) ;; throw e
  end.

(** [require(module)]: returns the module or throws, synchronously. *)
Definition require (r : Js.Result unit) : M unit :=
  match r with
  | inr _ => ret tt
  | inl e => throw e
  end.

Definition alert (title message : string) (buttons : list Button) : M unit :=
  emit (Alert title message buttons).

Definition console_log (label : string) : M unit := emit (ConsoleLog label).

Definition setLoading (b : bool) : M unit :=
  fun w => (inr tt, {| store := store w; loading := b;
                       pending := pending w; trace := trace w ++ [SetLoading b] |}).

(** The store's [clearCart], called from the component. *)
Definition clearCart : M unit :=
  fun w => (inr tt, {| store := CartStore.clearCart (store w); loading := loading w;
                       pending := pending w; trace := trace w ++ [ClearCart] |}).

(** [script.onload = ...; document.body.appendChild(script)] *)
Definition appendScript (src : string) (onload : Task) : M unit :=
  fun w => (inr tt, {| store := store w; loading := loading w;
                       pending := pending w ++ [onload];
                       trace := trace w ++ [ScriptAppended src] |}).

(* ================================================================= *)
(** ** REST wrappers ([src/api/orders.ts], [src/api/payments.ts]) *)

Section Api.

Variable env : Env.

(** [ordersApi.createOrder]: [api.post('/orders', data)] *)
Definition createOrder (data : Orders.CreateOrderData) : M Orders.Order :=
  emit (Post "/orders" (OrderBody data)) ;;
  await "/orders" (post_orders env data).

(** [paymentsApi.createRazorpayOrder]: [api.post('/payments/create-order', { amount })] *)
Definition createRazorpayOrder (amount : Z) : M Payments.RazorpayOrder :=
  emit (Post "/payments/create-order" (AmountBody amount)) ;;
  await "/payments/create-order" (post_payments_create_order env amount).

(** [paymentsApi.verifyPayment]: [api.post('/payments/verify', data)] *)
Definition verifyPayment (data : Payments.VerifyPaymentData) : M unit :=
  emit (Post "/payments/verify" (VerifyBody data)) ;;
  await "/payments/verify" (post_payments_verify env data).

End Api.

(* ================================================================= *)
(** ** The checkout screen ([frontend/app/checkout.tsx]) *)

(** [COLORS.primary] of [src/constants/theme.ts]. *)
Definition COLORS_primary : string := "#FF6B00".

(** [useState<ShippingAddress>({...})]: the address a new screen starts with. *)
Definition initial_address : ShippingAddress :=
  {| full_name := ""; phone := ""; address_line1 := ""; address_line2 := Some "";
     city := ""; state := ""; pincode := "" |}.

(** [useState<'cod' | 'razorpay'>('razorpay')] *)
Definition initial_paymentMethod : PaymentMethod := razorpay.

Section Checkout.

Variable env : Env.

(** What one render of [CheckoutScreen] closes its functions over: the
    component state and the [total] read from the cart store. *)
Variable address : ShippingAddress.
Variable paymentMethod : PaymentMethod.
Variable total : Z.

Definition validateAddress : M bool :=
  if negb (Js.truthy (full_name address)) || negb (Js.truthy (phone address))
     || negb (Js.truthy (address_line1 address)) || negb (Js.truthy (city address))
     || negb (Js.truthy (state address)) || negb (Js.truthy (pincode address))
  then
    alert "Error" "Please fill in all required fields" [] ;;
    ret false
  else if (String.length (phone address) <? 10)%nat then
    alert "Error" "Please enter a valid phone number" [] ;;
    ret false
  else if negb (String.length (pincode address) =? 6)%nat then
    alert "Error" "Please enter a valid 6-digit pincode" [] ;;
    ret false
  else
    ret true.

(** [options.handler] of the web path (lines 77-102). *)
Definition handler (orderId : string) (response : Payments.Response) : M unit :=
  try_catch
    (verifyPayment env
       {| Payments.v_razorpay_order_id := Payments.r_razorpay_order_id response;
          Payments.v_razorpay_payment_id := Payments.r_razorpay_payment_id response;
          Payments.v_razorpay_signature := Payments.r_razorpay_signature response;
          Payments.v_order_id := orderId |} ;;
     clearCart ;;
     alert "Payment Successful!"
       ("Your order #" ++ Js.slice0 8 orderId ++ " has been placed successfully.")
       [ViewOrder ("/order/" ++ orderId)])
    (fun error =>
       console_log "Payment verification failed:" ;;
       alert "Payment Verification Failed" "Please contact support." []).

(** [RazorpayCheckout.open(options)] of react-native-razorpay, awaited. *)
Definition RazorpayCheckout_open_ (options : Razorpay.Options) : M Payments.Response :=
  emit (Open native options) ;;
  match RazorpayCheckout_open env options with
  | inr response => emit (Paid native response) ;; ret response
  | inl e => emit (NotPaid native e) ;; throw e
  end.

Definition handleRazorpayPayment (orderId : string) : M unit :=
  try_catch
    (razorpayOrder <- createRazorpayOrder env (grandTotal total) ;;
     match OS env with
     | web =>
         let options :=
           {| Razorpay.key := Payments.key_id razorpayOrder;
              Razorpay.amount := Payments.amount razorpayOrder;
              Razorpay.currency := Payments.currency razorpayOrder;
              Razorpay.name := "Constructo";
              Razorpay.description := "Construction Materials Purchase";
              Razorpay.image := None;
              Razorpay.order_id := Payments.razorpay_order_id razorpayOrder;
              Razorpay.handler := Some (Razorpay.VerifyAndReconcile orderId);
              Razorpay.prefill_name := full_name address;
              Razorpay.prefill_contact := phone address;
              Razorpay.theme_color := COLORS_primary |} in
         if window_defined env then
           appendScript "https://checkout.razorpay.com/v1/checkout.js"
             (ScriptOnload options)
         else ret tt
     | native =>
         try_catch
           (require (require_razorpay env) ;;
            let options :=
              {| Razorpay.key := Payments.key_id razorpayOrder;
                 Razorpay.amount := Payments.amount razorpayOrder;
                 Razorpay.currency := Payments.currency razorpayOrder;
                 Razorpay.name := "Constructo";
                 Razorpay.description := "Construction Materials Purchase";
                 Razorpay.image :=
                   Some "https://constructor-app.preview.emergentagent.com/icon.png";
                 Razorpay.order_id := Payments.razorpay_order_id razorpayOrder;
                 Razorpay.handler := None;
                 Razorpay.prefill_name := full_name address;
                 Razorpay.prefill_contact := phone address;
                 Razorpay.theme_color := COLORS_primary |} in
            response <- RazorpayCheckout_open_ options ;;
            verifyPayment env
              {| Payments.v_razorpay_order_id := Payments.r_razorpay_order_id response;
                 Payments.v_razorpay_payment_id := Payments.r_razorpay_payment_id response;
                 Payments.v_razorpay_signature := Payments.r_razorpay_signature response;
                 Payments.v_order_id := orderId |} ;;
            clearCart ;;
            alert "Payment Successful!"
              ("Your order #" ++ Js.slice0 8 orderId ++ " has been placed successfully.")
              [ViewOrder ("/order/" ++ orderId)])
           (fun error =>
              console_log "Razorpay error:" ;;
              if Js.strict_neq (Js.code error) "PAYMENT_CANCELLED" then
                alert "Payment Failed"
                  (Js.or_else (Js.description error) "Something went wrong") []
              else ret tt)
     end)
    (fun error =>
       console_log "Error creating Razorpay order:" ;;
       alert "Error" "Failed to initiate payment. Please try again." []).

Definition handlePlaceOrder : M unit :=
  valid <- validateAddress ;;
  if negb valid then ret tt
  else
    try_finally
      (try_catch
         (setLoading true ;;
          order <- createOrder env
                     {| Orders.data_shipping_address := address;
                        Orders.data_payment_method := literal paymentMethod |} ;;
          match paymentMethod with
          | razorpay => handleRazorpayPayment (Orders.id order)
          | cod =>
              clearCart ;;
              alert "Order Placed!"
                ("Your order #" ++ Js.slice0 8 (Orders.id order)
                   ++ " has been placed successfully.")
                [ViewOrder ("/order/" ++ Orders.id order)]
          end)
         (fun error =>
            console_log "Error placing order:" ;;
            alert "Error" (Js.or_else (Js.detail error) "Failed to place order") []))
      (setLoading false).

(** [script.onload]: [new Razorpay(options).open()], and what checkout.js
    does with the options afterwards. *)
Definition run_task (t : Task) : M unit :=
  match t with
  | ScriptOnload options =>
      if script_loads env then
        emit (Open web options) ;;
        match checkout_js env options with
        | inr response =>
            emit (Paid web response) ;;
            match Razorpay.handler options with
            | Some (Razorpay.VerifyAndReconcile orderId) => handler orderId response
            | None => ret tt
            end
        | inl e => emit (NotPaid web e)
        end
      else ret tt
  end.

(** The browser runs the callbacks that were registered. *)
Definition drain (w : World) : World :=
  fold_left (fun w t => snd (run_task t w)) (pending w)
    {| store := store w; loading := loading w; pending := []; trace := trace w |}.

(** One complete execution of [handlePlaceOrder], callbacks included. *)
Definition place_order (w : World) : World := drain (snd (handlePlaceOrder w)).

End Checkout.

(** What [CheckoutScreen] returns: the empty-cart view (lines 213-228), whose
    only control is "Start Shopping", or the checkout form, whose
    "Place Order" / "Pay Now" button has [onPress={handlePlaceOrder}] and
    [disabled={loading}]. *)
Inductive View : Type :=
| EmptyCartView
| CheckoutForm (disabled : bool).

Definition CheckoutScreen (w : World) : View :=
  if (List.length (CartStore.items (store w)) =? 0)%nat then EmptyCartView
  else CheckoutForm (loading w).

(** The user taps the order button of the rendered screen, if it has one. *)
Definition tap_order_button (env : Env) (address : ShippingAddress)
    (paymentMethod : PaymentMethod) (w : World) : World :=
  match CheckoutScreen w with
  | EmptyCartView => w
  | CheckoutForm true => w
  | CheckoutForm false =>
      place_order env address paymentMethod (CartStore.total (store w)) w
  end.

(** An execution of [handlePlaceOrder] from a cart, observed from the start. *)
Definition checkout (env : Env) (address : ShippingAddress)
    (paymentMethod : PaymentMethod) (cart : CartStore.CartState) : World :=
  place_order env address paymentMethod (CartStore.total cart) (fresh cart).

(* ================================================================= *)
(** ** Reading a trace *)

Definition is_post (path : string) (e : Event) : bool :=
  match e with
  | Post p _ => String.eqb p path
  | _ => false
  end.

Definition is_resolved (path : string) (e : Event) : bool :=
  match e with
  | Resolved p => String.eqb p path
  | _ => false
  end.

Definition is_paid (e : Event) : bool :=
  match e with
  | Paid _ _ => true
  | _ => false
  end.

Definition is_clear (e : Event) : bool :=
  match e with
  | ClearCart => true
  | _ => false
  end.

Definition is_alert (e : Event) : bool :=
  match e with
  | Alert _ _ _ => true
  | _ => false
  end.

(** The two alerts that tell the user the order went through. *)
Definition is_success_alert (e : Event) : bool :=
  match e with
  | Alert title _ _ =>
      String.eqb title "Payment Successful!" || String.eqb title "Order Placed!"
  | _ => false
  end.

(** A step of the flow that failed: a rejected request, a payment UI that
    ended without a payment, or an alert other than the success alerts. *)
Definition is_failure (e : Event) : bool :=
  match e with
  | Rejected _ _ => true
  | NotPaid _ _ => true
  | Alert _ _ _ => negb (is_success_alert e)
  | _ => false
  end.

(** Anything of the payment stage: a request to a payments endpoint or a
    hand-off to the payment UI. *)
Definition is_payment_step (e : Event) : bool :=
  match e with
  | Post p _ => String.eqb p "/payments/create-order" || String.eqb p "/payments/verify"
  | ScriptAppended _ => true
  | Open _ _ => true
  | Paid _ _ => true
  | NotPaid _ _ => true
  | _ => false
  end.

Definition count (p : Event -> bool) (tr : list Event) : nat :=
  List.length (filter p tr).

(** The paths of the requests of a trace, in order. *)
Fixpoint requests (tr : list Event) : list string :=
  match tr with
  | [] => []
  | Post p _ :: tr' => p :: requests tr'
  | _ :: tr' => requests tr'
  end.

(** Every [q] event of the trace has a [p] event strictly before it. *)
Definition preceded (p q : Event -> bool) (tr : list Event) : Prop :=
  forall pre e post, tr = (pre ++ e :: post)%list -> q e = true -> existsb p pre = true.

(** The same, as a scan from the left; [seen] tells whether a [p] event
    has gone by. *)
Fixpoint scan (p q : Event -> bool) (seen : bool) (tr : list Event) : bool :=
  match tr with
  | [] => true
  | e :: tr' => (if q e then seen else true) && scan p q (seen || p e) tr'
  end.

(** The validation alert, as [validateAddress] raises it. *)
Definition refuse (message : string) (w : World) : World :=
  {| store := store w; loading := loading w; pending := pending w;
     trace := trace w ++ [Alert "Error" message []] |}.

(* ================================================================= *)
(** ** The address rules of §4.1 *)

(** The required fields: everything but [address_line2]. *)
Definition required_filled (a : ShippingAddress) : Prop :=
  full_name a <> "" /\ phone a <> "" /\ address_line1 a <> "" /\
  city a <> "" /\ state a <> "" /\ pincode a <> "".

Definition required_missing (a : ShippingAddress) : Prop :=
  full_name a = "" \/ phone a = "" \/ address_line1 a = "" \/
  city a = "" \/ state a = "" \/ pincode a = "".


(* ================================================================= *)
(** ** Sample data *)

Module Sample.

Definition address : ShippingAddress :=
  {| full_name := "Asha Rao"; phone := "9876543210";
     address_line1 := "12 MG Road"; address_line2 := None;
     city := "Pune"; state := "MH"; pincode := "411001" |}.

(** Scenario F: a nine-digit phone number. *)
Definition short_phone : ShippingAddress :=
  {| full_name := "Asha Rao"; phone := "987654321";
     address_line1 := "12 MG Road"; address_line2 := None;
     city := "Pune"; state := "MH"; pincode := "411001" |}.

Definition cement : CartStore.CartItem :=
  {| CartStore.product_id := "p1"; CartStore.quantity := 2;
     CartStore.product :=
       {| CartStore.id := "p1"; CartStore.name := "Cement 50kg";
          CartStore.price := 2000; CartStore.image := "cement.png";
          CartStore.brand := None |} |}.

Definition cart : CartStore.CartState :=
  {| CartStore.items := [cement]; CartStore.total := 4000 |}.

Definition order : Orders.Order :=
  {| Orders.id := "0123456789abcdef"; Orders.user_id := "u1";
     Orders.items := []; Orders.shipping_address := address;
     Orders.payment_method := "razorpay"; Orders.subtotal := 4000;
     Orders.shipping_fee := 99; Orders.total := 4099;
     Orders.status := "pending"; Orders.created_at := "2024-01-01T00:00:00Z" |}.

Definition intent : Payments.RazorpayOrder :=
  {| Payments.razorpay_order_id := "order_X"; Payments.amount := 409900;
     Payments.currency := "INR"; Payments.key_id := "rzp_test_key" |}.

Definition paid : Payments.Response :=
  {| Payments.r_razorpay_order_id := "order_X";
     Payments.r_razorpay_payment_id := "pay_1";
     Payments.r_razorpay_signature := "sig" |}.

(** The server answers 400 to the verify request. *)
Definition bad_request : Js.Error :=
  {| Js.code := Some "ERR_BAD_REQUEST"; Js.description := None; Js.detail := None |}.

Definition cancelled : Js.Error :=
  {| Js.code := Some "PAYMENT_CANCELLED"; Js.description := None; Js.detail := None |}.

(** Every collaborator succeeds. *)
Definition happy (os : Platform) : Env :=
  {| OS := os;
     post_orders := fun _ => inr order;
     post_payments_create_order := fun _ => inr intent;
     post_payments_verify := fun _ => inr tt;
     window_defined := true;
     script_loads := true;
     checkout_js := fun _ => inr paid;
     require_razorpay := inr tt;
     RazorpayCheckout_open := fun _ => inr paid |}.

(** The payment UI succeeds and the server rejects the verification. *)
Definition verify_rejected (os : Platform) : Env :=
  {| OS := os;
     post_orders := fun _ => inr order;
     post_payments_create_order := fun _ => inr intent;
     post_payments_verify := fun _ => inl bad_request;
     window_defined := true;
     script_loads := true;
     checkout_js := fun _ => inr paid;
     require_razorpay := inr tt;
     RazorpayCheckout_open := fun _ => inr paid |}.

(** The user closes the payment UI. *)
Definition user_cancels (os : Platform) : Env :=
  {| OS := os;
     post_orders := fun _ => inr order;
     post_payments_create_order := fun _ => inr intent;
     post_payments_verify := fun _ => inr tt;
     window_defined := true;
     script_loads := true;
     checkout_js := fun _ => inl cancelled;
     require_razorpay := inr tt;
     RazorpayCheckout_open := fun _ => inl cancelled |}.

(** The payment UI fails for a reason other than cancellation. *)
Definition gateway_error : Js.Error :=
  {| Js.code := Some "BAD_REQUEST_ERROR"; Js.description := None; Js.detail := None |}.

Definition gateway_fails (os : Platform) : Env :=
  {| OS := os;
     post_orders := fun _ => inr order;
     post_payments_create_order := fun _ => inr intent;
     post_payments_verify := fun _ => inr tt;
     window_defined := true;
     script_loads := true;
     checkout_js := fun _ => inl gateway_error;
     require_razorpay := inr tt;
     RazorpayCheckout_open := fun _ => inl gateway_error |}.

End Sample.

(* ================================================================= *)
(** ** More readers of a checkout trace *)

Definition is_set_loading (e : Event) : bool :=
  match e with
  | SetLoading _ => true
  | _ => false
  end.

Definition is_open (e : Event) : bool :=
  match e with
  | Open _ _ => true
  | _ => false
  end.

(* ================================================================= *)
(** ** Around the checkout: cart API, product, cart and order screens

    [src/api/cart.ts], [ProductDetailScreen] ([app/product/[id].tsx]),
    [CartScreen] ([app/(tabs)/cart.tsx]), the badge of [TabLayout]
    ([app/(tabs)/_layout.tsx]), [OrdersScreen] ([app/orders.tsx]) and the
    progress tracker of [OrderDetailScreen].  The screens share the cart
    store; each handler runs against the outcomes its server calls have
    this time. *)

Module Shop.

Inductive Method : Type := GET | POST | PUT | DELETE.

(** Request bodies: none, or [{ product_id, quantity }]. *)
Inductive Payload : Type :=
| NoPayload
| ItemPayload (product_id : string) (quantity : Z).

(** What pressing a button of an alert runs; the closures are kept as data. *)
Inductive OnPress : Type :=
| NoHandler                      (* a button without [onPress] *)
| RouterPush (route : string)    (* [() => router.push(route)] *)
| ClearConfirmed.                (* the async closure of [handleClearCart] *)

Inductive Act : Type :=
| Call (m : Method) (path : string) (body : Payload)   (* api.get / post / put / delete *)
| Ok (path : string)                                   (* the awaited call resolved *)
| Err (path : string) (e : Js.Error)                   (* the awaited call rejected *)
| Dialog (title message : string) (buttons : list (string * OnPress))   (* Alert.alert *)
| Navigate (route : string)                            (* router.push(route) *)
| Console (label : string).                            (* console.log(label, error) *)

(** [interface Cart] of [src/api/cart.ts], its items read as the store's
    [CartItem]s, which is how [setCart(cart.items, cart.total)] takes them. *)
Record Cart : Type := mkCart {
  items : list CartStore.CartItem;
  total : Z
}.

(** The cart store and the state hooks of the screens. *)
Record State : Type := mkState {
  store : CartStore.CartState;    (* useCartStore *)
  addingToCart : bool;            (* ProductDetailScreen, [useState(false)] *)
  quantity : Z;                   (* ProductDetailScreen, [useState(1)] *)
  loading : bool;                 (* CartScreen, [useState(false)] *)
  refreshing : bool;              (* CartScreen, [useState(false)] *)
  orders : list Orders.Order;     (* OrdersScreen, [useState<Order[]>([])] *)
  ordersLoading : bool;           (* OrdersScreen, [useState(true)] *)
  ordersRefreshing : bool;        (* OrdersScreen, [useState(false)] *)
  history : list Act
}.

(** A session that starts from a cart, with the screens as they mount. *)
Definition start (cart : CartStore.CartState) : State :=
  {| store := cart; addingToCart := false; quantity := 1;
     loading := false; refreshing := false;
     orders := []; ordersLoading := true; ordersRefreshing := false;
     history := [] |}.

Definition set_store (c : CartStore.CartState) (s : State) : State :=
  {| store := c; addingToCart := addingToCart s; quantity := quantity s;
     loading := loading s; refreshing := refreshing s; orders := orders s;
     ordersLoading := ordersLoading s; ordersRefreshing := ordersRefreshing s;
     history := history s |}.

Definition set_addingToCart (b : bool) (s : State) : State :=
  {| store := store s; addingToCart := b; quantity := quantity s;
     loading := loading s; refreshing := refreshing s; orders := orders s;
     ordersLoading := ordersLoading s; ordersRefreshing := ordersRefreshing s;
     history := history s |}.

Definition setQuantity (q : Z) (s : State) : State :=
  {| store := store s; addingToCart := addingToCart s; quantity := q;
     loading := loading s; refreshing := refreshing s; orders := orders s;
     ordersLoading := ordersLoading s; ordersRefreshing := ordersRefreshing s;
     history := history s |}.

Definition set_loading (b : bool) (s : State) : State :=
  {| store := store s; addingToCart := addingToCart s; quantity := quantity s;
     loading := b; refreshing := refreshing s; orders := orders s;
     ordersLoading := ordersLoading s; ordersRefreshing := ordersRefreshing s;
     history := history s |}.

Definition set_refreshing (b : bool) (s : State) : State :=
  {| store := store s; addingToCart := addingToCart s; quantity := quantity s;
     loading := loading s; refreshing := b; orders := orders s;
     ordersLoading := ordersLoading s; ordersRefreshing := ordersRefreshing s;
     history := history s |}.

Definition set_orders (l : list Orders.Order) (s : State) : State :=
  {| store := store s; addingToCart := addingToCart s; quantity := quantity s;
     loading := loading s; refreshing := refreshing s; orders := l;
     ordersLoading := ordersLoading s; ordersRefreshing := ordersRefreshing s;
     history := history s |}.

Definition set_ordersLoading (b : bool) (s : State) : State :=
  {| store := store s; addingToCart := addingToCart s; quantity := quantity s;
     loading := loading s; refreshing := refreshing s; orders := orders s;
     ordersLoading := b; ordersRefreshing := ordersRefreshing s;
     history := history s |}.

Definition set_ordersRefreshing (b : bool) (s : State) : State :=
  {| store := store s; addingToCart := addingToCart s; quantity := quantity s;
     loading := loading s; refreshing := refreshing s; orders := orders s;
     ordersLoading := ordersLoading s; ordersRefreshing := b;
     history := history s |}.

Definition record (a : Act) (s : State) : State :=
  {| store := store s; addingToCart := addingToCart s; quantity := quantity s;
     loading := loading s; refreshing := refreshing s; orders := orders s;
     ordersLoading := ordersLoading s; ordersRefreshing := ordersRefreshing s;
     history := history s ++ [a] |}.

(** The outcomes the server calls of one handler run have. *)
Record Server : Type := mkServer {
  cart_get : Js.Result Cart;
  cart_add : string -> Z -> Js.Result unit;
  cart_update : string -> Z -> Js.Result unit;
  cart_remove : string -> Js.Result unit;
  cart_clear : Js.Result unit;
  orders_get : Js.Result (list Orders.Order)
}.

Definition Async (A : Type) : Type := State -> Js.Result A * State.

Definition pure {A} (a : A) : Async A := fun s => (inr a, s).

Definition raise {A} (e : Js.Error) : Async A := fun s => (inl e, s).

Definition andThen {A B} (m : Async A) (k : A -> Async B) : Async B :=
  fun s =>
    match m s with
    | (inr a, s') => k a s'
    | (inl e, s') => (inl e, s')
    end.

Declare Scope shop_scope.
Delimit Scope shop_scope with shop.
Notation "x <- m ;; k" := (andThen m (fun x => k))
  (at level 100, m at next level, right associativity) : shop_scope.
Notation "m ;; k" := (andThen m (fun _ => k))
  (at level 100, right associativity) : shop_scope.
Local Open Scope shop_scope.

(** [try { body } catch (error) { handler }] *)
Definition attempt {A} (body : Async A) (handler : Js.Error -> Async A) : Async A :=
  fun s =>
    match body s with
    | (inl e, s') => handler e s'
    | r => r
    end.

(** [try { body } finally { fin }], for a [fin] that does not throw. *)
Definition ensuring {A} (body : Async A) (fin : Async unit) : Async A :=
  fun s =>
    let (r, s') := body s in
    (r, snd (fin s')).

(** A state update that cannot fail. *)
Definition update (f : State -> State) : Async unit := fun s => (inr tt, f s).

Definition say (a : Act) : Async unit := update (record a).

Definition settle {A} (path : string) (r : Js.Result A) : Async A :=
  match r with
  | inr a => say (Ok path) ;; pure a
  | inl e => say (Err path e) ;; raise e
  end.

(** The store's [setCart] and [clearCart], called from a component. *)
Definition setCart (items : list CartStore.CartItem) (total : Z) : Async unit :=
  fun s => (inr tt, set_store (CartStore.setCart items total (store s)) s).

Definition clearCart : Async unit :=
  fun s => (inr tt, set_store (CartStore.clearCart (store s)) s).

Definition setAddingToCart (b : bool) : Async unit := update (set_addingToCart b).

Definition setLoading (b : bool) : Async unit := update (set_loading b).

Definition setRefreshing (b : bool) : Async unit := update (set_refreshing b).

(** [!!token] for the [token: string | null] of the auth store. *)
Definition logged_in (token : option string) : bool :=
  match token with
  | Some t => Js.truthy t
  | None => false
  end.

(* ----------------------------------------------------------------- *)
(** *** [cartApi] ([src/api/cart.ts]) *)

Section CartApi.

Variable srv : Server.

Definition getCart : Async Cart :=
  say (Call GET "/cart" NoPayload) ;;
  settle "/cart" (cart_get srv).

(** [addToCart(product_id, quantity = 1)] *)
Definition addToCart (product_id : string) (quantity : option Z) : Async unit :=
  let quantity := match quantity with Some q => q | None => 1 end in
  say (Call POST "/cart/add" (ItemPayload product_id quantity)) ;;
  settle "/cart/add" (cart_add srv product_id quantity).

Definition updateCartItem (product_id : string) (quantity : Z) : Async unit :=
  say (Call PUT "/cart/update" (ItemPayload product_id quantity)) ;;
  settle "/cart/update" (cart_update srv product_id quantity).

Definition removeFromCart (product_id : string) : Async unit :=
  say (Call DELETE ("/cart/remove/" ++ product_id) NoPayload) ;;
  settle ("/cart/remove/" ++ product_id) (cart_remove srv product_id).

(** [cartApi.clearCart] *)
Definition clearCart_api : Async unit :=
  say (Call DELETE "/cart/clear" NoPayload) ;;
  settle "/cart/clear" (cart_clear srv).

End CartApi.

(* ----------------------------------------------------------------- *)
(** *** [ProductDetailScreen] *)

Section ProductDetail.

Variable srv : Server.

(** What a render closes the handlers over: the auth token, the loaded
    product's [id] and the [quantity] hook. *)
Variable token : option string.
Variable product_id : string.
Variable quantity_ : Z.

Definition handleAddToCart : Async unit :=
  if negb (logged_in token) then
    say (Dialog "Login Required" "Please login to add items to cart"
           [("Cancel", NoHandler); ("Login", RouterPush "/login")])
  else
    ensuring
      (attempt
         (setAddingToCart true ;;
          addToCart srv product_id (Some quantity_) ;;
          cart <- getCart srv ;;
          setCart (items cart) (total cart) ;;
          say (Dialog "Success" "Item added to cart!" []))
         (fun error =>
            say (Console "Error adding to cart:") ;;
            say (Dialog "Error" "Failed to add item to cart" [])))
      (setAddingToCart false).

Definition handleBuyNow : Async unit :=
  handleAddToCart ;;
  if logged_in token then say (Navigate "/checkout") else pure tt.

End ProductDetail.

(** The controls of the bottom bar: the two stepper buttons, "Add" and
    "Buy Now"; the last two are [disabled={addingToCart || product.stock === 0}].
    Taps are taken one at a time: a handler has settled before the next tap. *)
Inductive DetailTap : Type :=
| TapMinus
| TapPlus
| TapAdd (srv : Server)
| TapBuyNow (srv : Server).

Definition detail_tap (token : option string) (product_id : string) (stock : Z)
    (t : DetailTap) (s : State) : State :=
  match t with
  | TapMinus => setQuantity (Z.max 1 (quantity s - 1)) s
  | TapPlus => setQuantity (Z.min stock (quantity s + 1)) s
  | TapAdd srv =>
      if addingToCart s || (stock =? 0) then s
      else snd (handleAddToCart srv token product_id (quantity s) s)
  | TapBuyNow srv =>
      if addingToCart s || (stock =? 0) then s
      else snd (handleBuyNow srv token product_id (quantity s) s)
  end.

Definition detail_taps (token : option string) (product_id : string) (stock : Z)
    (taps : list DetailTap) (s : State) : State :=
  fold_left (fun s t => detail_tap token product_id stock t s) taps s.

(* ----------------------------------------------------------------- *)
(** *** [CartScreen] *)

Section CartScreenHandlers.

Variable srv : Server.
Variable token : option string.

Definition loadCart : Async unit :=
  ensuring
    (attempt
       (setLoading true ;;
        cart <- getCart srv ;;
        setCart (items cart) (total cart))
       (fun error => say (Console "Error loading cart:")))
    (setLoading false).

Definition onRefresh : Async unit :=
  if negb (logged_in token) then pure tt
  else
    setRefreshing true ;;
    loadCart ;;
    setRefreshing false.

Definition handleUpdateQuantity (productId : string) (quantity : Z) : Async unit :=
  attempt
    (updateCartItem srv productId quantity ;;
     loadCart)
    (fun error => say (Console "Error updating cart:")).

Definition handleRemoveItem (productId : string) : Async unit :=
  attempt
    (removeFromCart srv productId ;;
     loadCart)
    (fun error => say (Console "Error removing item:")).

(** The [onPress] of the "Clear" button of the dialog. *)
Definition clearConfirmed : Async unit :=
  attempt
    (clearCart_api srv ;;
     clearCart)
    (fun error => say (Console "Error clearing cart:")).

End CartScreenHandlers.

Definition handleClearCart : Async unit :=
  say (Dialog "Clear Cart" "Are you sure you want to clear your cart?"
         [("Cancel", NoHandler); ("Clear", ClearConfirmed)]).

(** [handleCheckout], over the [items] of the render. *)
Definition handleCheckout : Async unit :=
  fun s =>
    if (List.length (CartStore.items (store s)) =? 0)%nat then
      say (Dialog "Empty Cart" "Please add items to your cart first." []) s
    else say (Navigate "/checkout") s.

(** What [CartScreen] returns. *)
Inductive CartView : Type :=
| LoginView      (* "Please Login" *)
| Spinner        (* [loading && items.length === 0] *)
| EmptyView      (* "Your cart is empty" *)
| CartList.      (* the item cards, "Clear All" and the summary *)

Definition CartScreen (token : option string) (s : State) : CartView :=
  if negb (logged_in token) then LoginView
  else if loading s && (List.length (CartStore.items (store s)) =? 0)%nat then Spinner
  else if (List.length (CartStore.items (store s)) =? 0)%nat then EmptyView
  else CartList.

(** What the user can do on the cart list.  The item buttons are those of
    [CartItemCard] for the [n]-th item; "Clear All" opens the dialog, which
    the user answers with "Clear" (the server call then has an outcome) or
    "Cancel".  Taps are taken one at a time, as on the product screen. *)
Inductive CartTap : Type :=
| PullToRefresh (srv : Server)
| ItemMinus (n : nat) (srv : Server)
| ItemPlus (n : nat) (srv : Server)
| ItemTrash (n : nat) (srv : Server)
| ClearAll (answer : option Server)
| ProceedToCheckout.

Definition cart_tap (token : option string) (t : CartTap) (s : State) : State :=
  match CartScreen token s with
  | CartList =>
      match t with
      | PullToRefresh srv => snd (onRefresh srv token s)
      | ItemMinus n srv =>
          match nth_error (CartStore.items (store s)) n with
          | Some item =>
              snd (handleUpdateQuantity srv (CartStore.product_id item)
                     (CartStore.quantity item - 1) s)
          | None => s
          end
      | ItemPlus n srv =>
          match nth_error (CartStore.items (store s)) n with
          | Some item =>
              snd (handleUpdateQuantity srv (CartStore.product_id item)
                     (CartStore.quantity item + 1) s)
          | None => s
          end
      | ItemTrash n srv =>
          match nth_error (CartStore.items (store s)) n with
          | Some item => snd (handleRemoveItem srv (CartStore.product_id item) s)
          | None => s
          end
      | ClearAll answer =>
          let s' := snd (handleClearCart s) in
          match answer with
          | Some srv => snd (clearConfirmed srv s')
          | None => s'
          end
      | ProceedToCheckout => snd (handleCheckout s)
      end
  | _ => s
  end.

Definition cart_taps (token : option string) (taps : list CartTap) (s : State) : State :=
  fold_left (fun s t => cart_tap token t s) taps s.

(** The servers a list of taps talks to. *)
Definition server_of (t : CartTap) : list Server :=
  match t with
  | PullToRefresh srv | ItemMinus _ srv | ItemPlus _ srv | ItemTrash _ srv => [srv]
  | ClearAll (Some srv) => [srv]
  | ClearAll None | ProceedToCheckout => []
  end.

(* ----------------------------------------------------------------- *)
(** *** [OrdersScreen] ([app/orders.tsx]) *)

Section OrdersScreenHandlers.

Variable srv : Server.

(** [ordersApi.getOrders] *)
Definition getOrders : Async (list Orders.Order) :=
  say (Call GET "/orders" NoPayload) ;;
  settle "/orders" (orders_get srv).

Definition loadOrders : Async unit :=
  ensuring
    (attempt
       (update (set_ordersLoading true) ;;
        data <- getOrders ;;
        update (set_orders data))
       (fun error => say (Console "Error loading orders:")))
    (update (set_ordersLoading false)).

(** [onRefresh] of the orders list. *)
Definition onRefreshOrders : Async unit :=
  update (set_ordersRefreshing true) ;;
  loadOrders ;;
  update (set_ordersRefreshing false).

End OrdersScreenHandlers.

(** What [OrdersScreen] shows under its header. *)
Inductive OrdersView : Type :=
| OrdersSpinner
| NoOrdersYet
| OrdersList (orders : list Orders.Order).

Definition OrdersScreen (s : State) : OrdersView :=
  if ordersLoading s then OrdersSpinner
  else if (List.length (orders s) =? 0)%nat then NoOrdersYet
  else OrdersList (orders s).

(** [getStatusColor], with the colours of [src/constants/theme.ts]. *)
Definition getStatusColor (status : string) : string :=
  if String.eqb status "pending" then "#F59E0B"          (* COLORS.warning *)
  else if String.eqb status "confirmed" then "#FF6B00"   (* COLORS.primary *)
  else if String.eqb status "shipped" then "#3B82F6"
  else if String.eqb status "delivered" then "#10B981"   (* COLORS.success *)
  else if String.eqb status "cancelled" then "#EF4444"   (* COLORS.error *)
  else "#6B7280".                                        (* COLORS.gray *)

(* ----------------------------------------------------------------- *)
(** *** The progress tracker of [OrderDetailScreen] ([app/order/[id].tsx]) *)








(* ----------------------------------------------------------------- *)
(** *** The cart badge of [TabLayout] *)


(** The paths of the calls of a history, in order. *)
Fixpoint calls (h : list Act) : list (Method * string) :=
  match h with
  | [] => []
  | Call m p _ :: h' => (m, p) :: calls h'
  | _ :: h' => calls h'
  end.

Definition is_dialog (a : Act) : bool :=
  match a with
  | Dialog _ _ _ => true
  | _ => false
  end.

End Shop.

(** A call of a history that resolved. *)
Definition is_ok (path : string) (a : Shop.Act) : bool :=
  match a with
  | Shop.Ok p => String.eqb p path
  | _ => false
  end.

(** What a tap added to the history. *)
Definition tap_history (token : option string) (t : Shop.CartTap) (s : Shop.State)
    : list Shop.Act :=
  skipn (List.length (Shop.history s)) (Shop.history (Shop.cart_tap token t s)).

(** What the server settled for the local cart: a cart it returned from a
    GET /cart, or the clearing it acknowledged on DELETE /cart/clear. *)
Inductive Sync : Type :=
| Fetched (cart : Shop.Cart)
| Cleared.

Definition apply_sync (local : CartStore.CartState) (sync : Sync) : CartStore.CartState :=
  match sync with
  | Fetched cart => {| CartStore.items := Shop.items cart; CartStore.total := Shop.total cart |}
  | Cleared => {| CartStore.items := []; CartStore.total := 0 |}
  end.

(** The syncs of one tap, read off the history the tap produced: the cart
    of the tap's server counts only if a GET /cart of this tap resolved,
    the clearing only if a DELETE /cart/clear of this tap resolved. *)
Definition tap_syncs (token : option string) (t : Shop.CartTap) (s : Shop.State)
    : list Sync :=
  flat_map
    (fun srv =>
       ((if existsb (is_ok "/cart") (tap_history token t s)
         then match Shop.cart_get srv with
              | inr cart => [Fetched cart]
              | inl _ => []
              end
         else [])
        ++ (if existsb (is_ok "/cart/clear") (tap_history token t s)
            then [Cleared] else []))%list)
    (Shop.server_of t).

(** The syncs of a sequence of taps, each tap read in the state the taps
    before it left. *)
Fixpoint cart_syncs (token : option string) (taps : list Shop.CartTap) (s : Shop.State)
    : list Sync :=
  match taps with
  | [] => []
  | t :: taps' =>
      (tap_syncs token t s ++ cart_syncs token taps' (Shop.cart_tap token t s))%list
  end.

(** The invariant of the product screen's bottom bar. *)
Definition detail_ok (product_id : string) (stock : Z) (s : Shop.State) : Prop :=
  Z.min 1 stock <= Shop.quantity s <= Z.max 1 stock
  /\ forall m path pid q,
       In (Shop.Call m path (Shop.ItemPayload pid q)) (Shop.history s) ->
       m = Shop.POST /\ path = "/cart/add" /\ pid = product_id
       /\ stock <> 0 /\ Z.min 1 stock <= q <= Z.max 1 stock.

Definition is_empty_cart_alert (a : Shop.Act) : bool :=
  match a with
  | Shop.Dialog title _ _ => String.eqb title "Empty Cart"
  | _ => false
  end.

(** The statuses [getStatusColor] has a colour for. *)
Definition known_status (status : string) : Prop :=
  In status ["pending"; "confirmed"; "shipped"; "delivered"; "cancelled"].

(* ================================================================= *)
(** ** More sample data *)

Module Scenario.

(** The server refuses the order and says why. *)
Definition out_of_stock : Js.Error :=
  {| Js.code := Some "ERR_BAD_REQUEST"; Js.description := None;
     Js.detail := Some "Cement 50kg is out of stock" |}.

Definition order_rejected (os : Platform) : Env :=
  {| OS := os;
     post_orders := fun _ => inl out_of_stock;
     post_payments_create_order := fun _ => inr Sample.intent;
     post_payments_verify := fun _ => inr tt;
     window_defined := true;
     script_loads := true;
     checkout_js := fun _ => inr Sample.paid;
     require_razorpay := inr tt;
     RazorpayCheckout_open := fun _ => inr Sample.paid |}.

(** The payment intent cannot be created. *)
Definition intent_rejected (os : Platform) : Env :=
  {| OS := os;
     post_orders := fun _ => inr Sample.order;
     post_payments_create_order := fun _ => inl Sample.bad_request;
     post_payments_verify := fun _ => inr tt;
     window_defined := true;
     script_loads := true;
     checkout_js := fun _ => inr Sample.paid;
     require_razorpay := inr tt;
     RazorpayCheckout_open := fun _ => inr Sample.paid |}.

(** On the web, checkout.js never loads. *)
Definition script_blocked : Env :=
  {| OS := web;
     post_orders := fun _ => inr Sample.order;
     post_payments_create_order := fun _ => inr Sample.intent;
     post_payments_verify := fun _ => inr tt;
     window_defined := true;
     script_loads := false;
     checkout_js := fun _ => inr Sample.paid;
     require_razorpay := inr tt;
     RazorpayCheckout_open := fun _ => inr Sample.paid |}.

(** A cart as the server returns it, and a server that accepts everything. *)
Definition cart : Shop.Cart :=
  {| Shop.items := [Sample.cement]; Shop.total := 4000 |}.

Definition server : Shop.Server :=
  {| Shop.cart_get := inr cart;
     Shop.cart_add := fun _ _ => inr tt;
     Shop.cart_update := fun _ _ => inr tt;
     Shop.cart_remove := fun _ => inr tt;
     Shop.cart_clear := inr tt;
     Shop.orders_get := inr [Sample.order] |}.

End Scenario.

(* ================================================================= *)
(** ** Running the flow symbolically *)

(** Split on the innermost undecided test or awaited outcome. *)
Ltac break_match :=
  match goal with
  | |- context [match ?x with _ => _ end] =>
      lazymatch x with
      | context [match _ with _ => _ end] => fail
      | _ => destruct x eqn:?
      end
  end.

Ltac flow_eval :=
  cbv beta iota zeta delta
    [checkout place_order handlePlaceOrder handleRazorpayPayment handler
     drain run_task RazorpayCheckout_open_ createOrder createRazorpayOrder verifyPayment
     try_finally try_catch await require alert console_log setLoading clearCart
     appendScript emit bind ret throw refuse fresh
     store loading pending trace fst snd app fold_left negb
     Razorpay.handler literal].

(* ================================================================= *)
(** ** Facts about traces *)

Lemma scan_seen (p q : Event -> bool) (tr : list Event) :
  forall seen pre e post,
    scan p q seen tr = true ->
    tr = (pre ++ e :: post)%list ->
    q e = true ->
    seen || existsb p pre = true.
Proof.
  induction tr as [|x tr IH]; intros seen pre e post Hscan Htr Hq.
  - destruct pre; discriminate.
  - cbn [scan] in Hscan. apply andb_true_iff in Hscan as [Hx Hrest].
    destruct pre as [|y pre]; cbn in Htr; injection Htr as -> ->.
    + rewrite Hq in Hx. now rewrite Hx.
    + specialize (IH _ _ _ _ Hrest eq_refl Hq).
      cbn [existsb]. now rewrite orb_assoc.
Qed.

Lemma scan_preceded (p q : Event -> bool) (tr : list Event) :
  scan p q false tr = true -> preceded p q tr.
Proof.
  intros Hscan pre e post Htr Hq.
  exact (scan_seen p q tr false pre e post Hscan Htr Hq).
Qed.

(* ================================================================= *)
(** ** The address validator *)

Lemma truthy_false (s : string) : Js.truthy s = false <-> s = "".
Proof. destruct s; cbn; split; congruence. Qed.

Lemma truthy_true (s : string) : Js.truthy s = true <-> s <> "".
Proof. destruct s; cbn; split; congruence. Qed.

Lemma required_filled_test (a : ShippingAddress) :
  required_filled a ->
  negb (Js.truthy (full_name a)) || negb (Js.truthy (phone a))
  || negb (Js.truthy (address_line1 a)) || negb (Js.truthy (city a))
  || negb (Js.truthy (state a)) || negb (Js.truthy (pincode a)) = false.
Proof.
  intros (H1 & H2 & H3 & H4 & H5 & H6).
  apply truthy_true in H1, H2, H3, H4, H5, H6.
  now rewrite H1, H2, H3, H4, H5, H6.
Qed.

Lemma required_missing_test (a : ShippingAddress) :
  required_missing a ->
  negb (Js.truthy (full_name a)) || negb (Js.truthy (phone a))
  || negb (Js.truthy (address_line1 a)) || negb (Js.truthy (city a))
  || negb (Js.truthy (state a)) || negb (Js.truthy (pincode a)) = true.
Proof.
  intros H.
  repeat rewrite orb_true_iff. repeat rewrite negb_true_iff.
  repeat rewrite truthy_false. unfold required_missing in H. tauto.
Qed.


Section Validator.

Variable a : ShippingAddress.
Variable w : World.

Lemma validateAddress_missing :
  required_missing a ->
  validateAddress a w = (inr false, refuse "Please fill in all required fields" w).
Proof.
  intros H. unfold validateAddress. now rewrite (required_missing_test a H).
Qed.

Lemma validateAddress_phone :
  required_filled a -> (String.length (phone a) < 10)%nat ->
  validateAddress a w = (inr false, refuse "Please enter a valid phone number" w).
Proof.
  intros H Hphone. unfold validateAddress. rewrite (required_filled_test a H).
  apply Nat.ltb_lt in Hphone. now rewrite Hphone.
Qed.

Lemma validateAddress_pincode :
  required_filled a -> (10 <= String.length (phone a))%nat ->
  String.length (pincode a) <> 6%nat ->
  validateAddress a w = (inr false, refuse "Please enter a valid 6-digit pincode" w).
Proof.
  intros H Hphone Hpin. unfold validateAddress. rewrite (required_filled_test a H).
  apply Nat.ltb_ge in Hphone. rewrite Hphone.
  apply Nat.eqb_neq in Hpin. now rewrite Hpin.
Qed.

Lemma validateAddress_pass :
  required_filled a -> (10 <= String.length (phone a))%nat ->
  String.length (pincode a) = 6%nat ->
  validateAddress a w = (inr true, w).
Proof.
  intros H Hphone Hpin. unfold validateAddress. rewrite (required_filled_test a H).
  apply Nat.ltb_ge in Hphone. rewrite Hphone.
  apply Nat.eqb_eq in Hpin. now rewrite Hpin.
Qed.

(** [validateAddress] either passes and leaves the world alone, or raises
    one "Error" alert and fails. *)
Lemma validateAddress_cases :
  validateAddress a w = (inr true, w) \/
  exists message, validateAddress a w = (inr false, refuse message w).
Proof.
  unfold validateAddress.
  destruct (_ || _).
  - right. now eexists.
  - destruct (_ <? _)%nat.
    + right. now eexists.
    + destruct (negb _).
      * right. now eexists.
      * now left.
Qed.


End Validator.

(** Every execution of [checkout env a pm cart], one goal per path. *)
Ltac run_flow a cart :=
  unfold checkout, place_order, handlePlaceOrder;
  unfold bind at 1;
  let V := fresh "Hvalid" in
  destruct (validateAddress_cases a (fresh cart)) as [V | [? V]];
  rewrite V;
  flow_eval; repeat (break_match; flow_eval).

(** The same for a goal about [w := checkout env a pm cart]: in each goal
    [w] is replaced by the world that path ends in. *)
Ltac run_flow_as w a cart :=
  let P := fresh "P" in
  intros w; pattern w;
  lazymatch goal with |- ?Q _ => set (P := Q) end;
  subst w; run_flow a cart; subst P; cbv beta.


Lemma cancelled_not_reported (e : Js.Error) :
  Js.code e = Some "PAYMENT_CANCELLED" ->
  Js.strict_neq (Js.code e) "PAYMENT_CANCELLED" = false.
Proof. intros ->. reflexivity. Qed.

(* ================================================================= *)
(** ** The scenarios of the specification, run *)

(** Scenario C: cash on delivery.  One order request, no payment step, the
    cart cleared and the order announced. *)
Example scenario_cod :
  let w := checkout (Sample.happy native) Sample.address cod Sample.cart in
  requests (trace w) = ["/orders"]
  /\ count is_payment_step (trace w) = 0%nat
  /\ store w = CartStore.initial
  /\ filter is_alert (trace w)
     = [Alert "Order Placed!" "Your order #01234567 has been placed successfully."
          [ViewOrder "/order/0123456789abcdef"]].
Proof. repeat split. Qed.

(** Online payment on the web: the widget opens once [handlePlaceOrder]
    has returned, and the handler verifies before it clears the cart. *)
Example scenario_online_web :
  let w := checkout (Sample.happy web) Sample.address razorpay Sample.cart in
  requests (trace w) = ["/orders"; "/payments/create-order"; "/payments/verify"]
  /\ store w = CartStore.initial
  /\ filter is_alert (trace w)
     = [Alert "Payment Successful!" "Your order #01234567 has been placed successfully."
          [ViewOrder "/order/0123456789abcdef"]].
Proof. repeat split. Qed.

(** Scenario D on the web: the user closes the widget; nothing follows. *)
Example scenario_cancel_web :
  let w := checkout (Sample.user_cancels web) Sample.address razorpay Sample.cart in
  requests (trace w) = ["/orders"; "/payments/create-order"]
  /\ store w = Sample.cart
  /\ filter is_alert (trace w) = [].
Proof. repeat split. Qed.

(* ================================================================= *)
(** ** Cart clearing *)

(** C1: the cart is cleared exactly when the server-side verification of an
    online payment succeeds or a COD order is created.  Then [clearCart]
    runs once and the store ends with no items and a total of 0; in every
    other execution the store
    is the cart it started from, and an execution in which any step failed
    (validation alert, rejected order, rejected payment intent, payment UI
    error or cancellation, rejected verification) never clears it. *)
Theorem cart_cleared_iff_verified_or_cod
    (env : Env) (address : ShippingAddress) (pm : PaymentMethod)
    (cart : CartStore.CartState) :
  let w := checkout env address pm cart in
  (In ClearCart (trace w) <->
     (pm = razorpay /\ In (Resolved "/payments/verify") (trace w)) \/
     (pm = cod /\ In (Resolved "/orders") (trace w)))
  /\ (In ClearCart (trace w) ->
        count is_clear (trace w) = 1%nat
        /\ store w = {| CartStore.items := []; CartStore.total := 0 |})
  /\ (~ In ClearCart (trace w) -> store w = cart)
  /\ (forall e, In e (trace w) -> is_failure e = true ->
        ~ In ClearCart (trace w) /\ store w = cart).
Proof.
  run_flow_as w address cart.
  all: cbn [trace store]; split; [| split; [| split]];
    [ cbn; intuition congruence
    | cbn; intros H; first [ split; reflexivity | exfalso; intuition congruence ]
    | cbn; intros H; first [ reflexivity | exfalso; apply H; tauto ]
    | intros ev Hin Hf;
      first [ split; [cbn; intuition congruence | reflexivity]
            | exfalso; cbn in Hin;
              repeat (destruct Hin as [<- | Hin]; [discriminate Hf |]); exact Hin ] ].
Qed.

(* ================================================================= *)
(** ** Ordering of the stages *)

(** C2: in an online-payment attempt there are as many verify requests as
    success results of the payment UI, and at most one; a payment UI that
    ends in cancellation or an error gives no verify request; the verify
    request comes after the success result and before the cart is cleared
    or success is announced. *)
Theorem verify_iff_gateway_success
    (env : Env) (address : ShippingAddress) (cart : CartStore.CartState) :
  let w := checkout env address razorpay cart in
  count (is_post "/payments/verify") (trace w) = count is_paid (trace w)
  /\ (count is_paid (trace w) <= 1)%nat
  /\ (forall p e, In (NotPaid p e) (trace w) ->
        count (is_post "/payments/verify") (trace w) = 0%nat)
  /\ preceded is_paid (is_post "/payments/verify") (trace w)
  /\ preceded (is_post "/payments/verify")
       (fun e => is_clear e || is_success_alert e) (trace w).
Proof.
  run_flow_as w address cart.
  all: cbn [trace]; split; [| split; [| split; [| split]]];
    [ reflexivity
    | cbn; lia
    | intros p e'; cbn; intuition congruence
    | apply scan_preceded; reflexivity
    | apply scan_preceded; reflexivity ].
Qed.

(** C3: every step of the payment stage (payment-intent request, hand-off
    to the payment UI, its result, verify request) comes after POST /orders
    has resolved, which comes after it was sent; the verify request names
    the id of the order the server returned; and once validation passes the
    first request is POST /orders whatever the payment method and whatever
    the payment stage does later. *)
Theorem order_created_before_payment
    (env : Env) (address : ShippingAddress) (pm : PaymentMethod)
    (cart : CartStore.CartState) :
  let w := checkout env address pm cart in
  preceded (is_resolved "/orders") is_payment_step (trace w)
  /\ preceded (is_post "/orders") (is_resolved "/orders") (trace w)
  /\ (forall data, In (Post "/payments/verify" (VerifyBody data)) (trace w) ->
        exists order,
          post_orders env
            {| Orders.data_shipping_address := address;
               Orders.data_payment_method := literal pm |} = inr order
          /\ Payments.v_order_id data = Orders.id order)
  /\ (fst (validateAddress address (fresh cart)) = inr true ->
        exists rest, requests (trace w) = "/orders" :: rest).
Proof.
  run_flow_as w address cart.
  all: cbn [trace]; split; [| split; [| split]];
    [ apply scan_preceded; reflexivity
    | apply scan_preceded; reflexivity
    | intros data; cbn; intuition (try congruence);
      try (match goal with H : Post _ _ = Post _ _ |- _ => injection H as <- end;
           eexists; split; [eassumption | reflexivity])
    | rewrite Hvalid; cbn; intros; try discriminate; eauto ].
Qed.

(* ================================================================= *)
(** ** Verification failure *)

(** C4: with the payment UI succeeding and the server rejecting the verify
    request, the native path raises the alert "Payment Failed" / "Something
    went wrong", the very alert a payment-UI error raises, while the web
    path raises "Payment Verification Failed" / "Please contact support.";
    neither clears the cart.  No execution on the native path ever raises
    the "Payment Verification Failed" alert. *)
Theorem native_verification_failure_reads_payment_failed :
  let rejected os :=
    checkout (Sample.verify_rejected os) Sample.address razorpay Sample.cart in
  filter is_alert (trace (rejected native))
    = [Alert "Payment Failed" "Something went wrong" []]
  /\ filter is_alert
       (trace (checkout (Sample.gateway_fails native) Sample.address razorpay Sample.cart))
     = [Alert "Payment Failed" "Something went wrong" []]
  /\ filter is_alert (trace (rejected web))
     = [Alert "Payment Verification Failed" "Please contact support." []]
  /\ store (rejected native) = Sample.cart
  /\ store (rejected web) = Sample.cart
  /\ (forall env address pm cart message buttons,
        OS env = native ->
        ~ In (Alert "Payment Verification Failed" message buttons)
            (trace (checkout env address pm cart))).
Proof.
  cbv zeta. repeat (split; [reflexivity |]).
  intros env address pm cart message buttons.
  run_flow address cart.
  all: cbn; intuition congruence.
Qed.

(* ================================================================= *)
(** ** Validation *)




(** C6 (amended): [validateAddress] reads the address only and checks the
    three rules in order, the first failure winning: a missing required
    field raises the "fill in all required fields" alert; otherwise a phone
    shorter than 10 raises the "valid phone number" alert; otherwise a
    pincode whose length is not 6 raises the "valid 6-digit pincode" alert;
    in these cases it returns [false]; otherwise it returns [true] and does
    nothing.  The alert that carries the reason is its only effect: no
    request is sent, and the cart, the [loading] flag and the registered
    callbacks are left as they were. *)
Theorem validateAddress_rules (a : ShippingAddress) (w : World) :
  (required_missing a ->
     validateAddress a w = (inr false, refuse "Please fill in all required fields" w))
  /\ (required_filled a -> (String.length (phone a) < 10)%nat ->
        validateAddress a w = (inr false, refuse "Please enter a valid phone number" w))
  /\ (required_filled a -> (10 <= String.length (phone a))%nat ->
      String.length (pincode a) <> 6%nat ->
        validateAddress a w = (inr false, refuse "Please enter a valid 6-digit pincode" w))
  /\ (required_filled a -> (10 <= String.length (phone a))%nat ->
      String.length (pincode a) = 6%nat ->
        validateAddress a w = (inr true, w)).
Proof.
  split; [| split; [| split]].
  - apply validateAddress_missing.
  - apply validateAddress_phone.
  - apply validateAddress_pincode.
  - apply validateAddress_pass.
Qed.

(** C6 as stated fails: the validator is not a pure function.  On the
    address of Scenario F it raises an alert, so the world it leaves is not
    the world it was run in. *)
Lemma validateAddress_raises_alert :
  validateAddress Sample.short_phone (fresh Sample.cart)
    = (inr false,
       {| store := Sample.cart; loading := false; pending := [];
          trace := [Alert "Error" "Please enter a valid phone number" []] |})
  /\ snd (validateAddress Sample.short_phone (fresh Sample.cart)) <> fresh Sample.cart.
Proof.
  split; [reflexivity |].
  intros H. apply (f_equal trace) in H. discriminate H.
Qed.

(* ================================================================= *)
(** ** Cancellation *)

(** C7: when the payment UI ends in a user cancellation
    ([code = 'PAYMENT_CANCELLED']) no alert is raised, the only requests of
    the execution are the order creation and the payment intent (nothing is
    sent about the order afterwards, so no payment is attached to it), no
    verify request is made and the cart is not cleared. *)
Theorem cancellation_is_silent
    (env : Env) (address : ShippingAddress) (pm : PaymentMethod)
    (cart : CartStore.CartState) (p : Platform) (e : Js.Error) :
  let w := checkout env address pm cart in
  In (NotPaid p e) (trace w) ->
  Js.code e = Some "PAYMENT_CANCELLED" ->
  count is_alert (trace w) = 0%nat
  /\ requests (trace w) = ["/orders"; "/payments/create-order"]
  /\ count (is_post "/payments/verify") (trace w) = 0%nat
  /\ ~ In ClearCart (trace w)
  /\ store w = cart.
Proof.
  run_flow_as w address cart.
  all: cbn; intros Hin Hcode.
  all: repeat (destruct Hin as [Hin | Hin]; try discriminate Hin); try contradiction.
  all: injection Hin as <- <-.
  all: try (rewrite (cancelled_not_reported _ Hcode) in *; discriminate).
  all: repeat split; try reflexivity; intuition congruence.
Qed.

(** Scenario D on the native path. *)
Lemma cancellation_is_silent_native :
  In (NotPaid native Sample.cancelled)
     (trace (checkout (Sample.user_cancels native) Sample.address razorpay Sample.cart))
  /\ count is_alert
       (trace (checkout (Sample.user_cancels native) Sample.address razorpay Sample.cart))
     = 0%nat
  /\ store (checkout (Sample.user_cancels native) Sample.address razorpay Sample.cart)
     = Sample.cart.
Proof.
  assert (Hin : In (NotPaid native Sample.cancelled)
     (trace (checkout (Sample.user_cancels native) Sample.address razorpay Sample.cart)))
    by (vm_compute; tauto).
  split; [exact Hin |].
  pose proof (cancellation_is_silent (Sample.user_cancels native) Sample.address razorpay
                Sample.cart native Sample.cancelled Hin eq_refl) as H.
  split; apply H.
Defined.

(* ================================================================= *)
(** ** Amounts and request bodies *)

(** C8: a cart total of 4000 gives a shipping fee of 99 and a grand total
    of 4099; 6000 gives 0 and 6000.  For every total the fee is 99 up to
    5000 and 0 above, and the grand total is the total plus the fee; the
    amount of every payment-intent request is that sum for the cart's
    total (4099 for the 4000 cart). *)
Theorem shipping_fee_scenarios :
  shippingFee 4000 = 99 /\ grandTotal 4000 = 4099
  /\ shippingFee 6000 = 0 /\ grandTotal 6000 = 6000
  /\ (forall total, total <= 5000 -> shippingFee total = 99)
  /\ (forall total, 5000 < total -> shippingFee total = 0)
  /\ (forall total, grandTotal total = total + shippingFee total)
  /\ (forall env address pm cart body,
        In (Post "/payments/create-order" body) (trace (checkout env address pm cart)) ->
        body = AmountBody (grandTotal (CartStore.total cart))
        /\ body = AmountBody (CartStore.total cart + shippingFee (CartStore.total cart))
        /\ (CartStore.total cart <= 5000 ->
              body = AmountBody (CartStore.total cart + 99))
        /\ (5000 < CartStore.total cart -> body = AmountBody (CartStore.total cart)))
  /\ In (Post "/payments/create-order" (AmountBody 4099))
       (trace (checkout (Sample.happy native) Sample.address razorpay Sample.cart)).
Proof.
  assert (Hlow : forall total, total <= 5000 -> shippingFee total = 99).
  { intros total H. unfold shippingFee. destruct (Z.gtb_spec total 5000); [lia | reflexivity]. }
  assert (Hhigh : forall total, 5000 < total -> shippingFee total = 0).
  { intros total H. unfold shippingFee. destruct (Z.gtb_spec total 5000); [reflexivity | lia]. }
  repeat (split; [reflexivity |]).
  split; [exact Hlow |]. split; [exact Hhigh |]. split; [reflexivity |].
  split; [| vm_compute; tauto].
  intros env address pm cart body Hin.
  assert (Hbody : body = AmountBody (grandTotal (CartStore.total cart))).
  { revert Hin. run_flow address cart.
    all: cbn; intuition congruence. }
  subst body. unfold grandTotal.
  split; [reflexivity | split; [reflexivity | split]]; intros Ht.
  - now rewrite (Hlow _ Ht).
  - rewrite (Hhigh _ Ht). f_equal. lia.
Qed.

(** C9 (amended): the body of every POST /orders carries the address of the
    screen and, as [payment_method], the literal of the selected method,
    which is 'cod' or 'razorpay'. *)
Theorem order_request_payment_method
    (env : Env) (address : ShippingAddress) (pm : PaymentMethod)
    (cart : CartStore.CartState) (body : Body) :
  In (Post "/orders" body) (trace (checkout env address pm cart)) ->
  exists data,
    body = OrderBody data
    /\ Orders.data_shipping_address data = address
    /\ Orders.data_payment_method data = literal pm
    /\ (Orders.data_payment_method data = "cod"
        \/ Orders.data_payment_method data = "razorpay").
Proof.
  run_flow address cart.
  all: cbn; intros Hin.
  all: repeat (destruct Hin as [Hin | Hin]; try discriminate Hin); try contradiction.
  all: injection Hin as <-; eexists; repeat split; cbn; auto.
Qed.

(** The order request of a screen left on its initial payment method. *)
Lemma order_request_payment_method_default :
  In (Post "/orders"
        (OrderBody {| Orders.data_shipping_address := Sample.address;
                      Orders.data_payment_method := "razorpay" |}))
     (trace (checkout (Sample.happy web) Sample.address initial_paymentMethod Sample.cart))
  /\ exists data,
       OrderBody {| Orders.data_shipping_address := Sample.address;
                    Orders.data_payment_method := "razorpay" |} = OrderBody data
       /\ Orders.data_shipping_address data = Sample.address
       /\ Orders.data_payment_method data = literal initial_paymentMethod
       /\ (Orders.data_payment_method data = "cod"
           \/ Orders.data_payment_method data = "razorpay").
Proof.
  assert (Hin : In (Post "/orders"
        (OrderBody {| Orders.data_shipping_address := Sample.address;
                      Orders.data_payment_method := "razorpay" |}))
     (trace (checkout (Sample.happy web) Sample.address initial_paymentMethod Sample.cart)))
    by (vm_compute; tauto).
  split; [exact Hin |].
  exact (order_request_payment_method (Sample.happy web) Sample.address
           initial_paymentMethod Sample.cart _ Hin).
Defined.

(** C9 as stated fails for the payment method the screen starts with: the
    order request says 'razorpay', which is neither 'cod' nor 'online'. *)
Lemma online_order_request_says_razorpay :
  exists data,
    In (Post "/orders" (OrderBody data))
       (trace (checkout (Sample.happy web) Sample.address initial_paymentMethod Sample.cart))
    /\ Orders.data_payment_method data <> "cod"
    /\ Orders.data_payment_method data <> "online".
Proof.
  exists {| Orders.data_shipping_address := Sample.address;
            Orders.data_payment_method := "razorpay" |}.
  split; [vm_compute; tauto |].
  split; discriminate.
Qed.

(** C10: shipping is free only strictly above 5000; at exactly 5000 the
    fee is 99 and the grand total 5099. *)
Theorem free_shipping_boundary :
  (forall total, shippingFee total = 0 <-> 5000 < total)
  /\ shippingFee 5000 = 99
  /\ grandTotal 5000 = 5099.
Proof.
  split; [| split; reflexivity].
  intros total. unfold shippingFee.
  destruct (Z.gtb_spec total 5000); split; intros; lia || discriminate.
Qed.

(* ================================================================= *)
(** ** More about the checkout flow *)

(** X1: every execution of [handlePlaceOrder] leaves the order button
    enabled and nothing pending: [loading] ends [false], and [setLoading]
    was either never called (validation failed) or called with [true] and
    then with [false]. *)
Theorem order_button_reenabled
    (env : Env) (address : ShippingAddress) (pm : PaymentMethod)
    (cart : CartStore.CartState) :
  let w := checkout env address pm cart in
  loading w = false
  /\ pending w = []
  /\ (filter is_set_loading (trace w) = []
      \/ filter is_set_loading (trace w) = [SetLoading true; SetLoading false]).
Proof.
  run_flow_as w address cart.
  all: cbn; split; [reflexivity | split; [reflexivity | tauto]].
Qed.

(** X2: an execution raises at most one alert, and an execution that
    raises none has not cleared the cart. *)
Theorem at_most_one_alert
    (env : Env) (address : ShippingAddress) (pm : PaymentMethod)
    (cart : CartStore.CartState) :
  let w := checkout env address pm cart in
  (count is_alert (trace w) <= 1)%nat
  /\ (count is_alert (trace w) = 0%nat ->
        forall e, In e (trace w) -> is_clear e = false).
Proof.
  run_flow_as w address cart.
  all: cbn; split; [lia | intros H; try discriminate H].
  all: intros ev Hin; repeat (destruct Hin as [<- | Hin]; [reflexivity |]); destruct Hin.
Qed.

(** X3: the requests of an execution are an initial part of POST /orders,
    POST /payments/create-order, POST /payments/verify, in this order and
    each at most once; the payment requests occur only for 'razorpay'. *)
Theorem requests_follow_the_stages
    (env : Env) (address : ShippingAddress) (pm : PaymentMethod)
    (cart : CartStore.CartState) :
  let w := checkout env address pm cart in
  requests (trace w) = []
  \/ requests (trace w) = ["/orders"]
  \/ (pm = razorpay /\ requests (trace w) = ["/orders"; "/payments/create-order"])
  \/ (pm = razorpay
      /\ requests (trace w) = ["/orders"; "/payments/create-order"; "/payments/verify"]).
Proof.
  run_flow_as w address cart.
  all: cbn; tauto.
Qed.

(** X4: with payment method 'cod' no step of the payment stage ever
    happens: the only request is POST /orders, and the cart is cleared
    exactly when that request resolves. *)
Theorem cod_never_reaches_payment
    (env : Env) (address : ShippingAddress) (cart : CartStore.CartState) :
  let w := checkout env address cod cart in
  count is_payment_step (trace w) = 0%nat
  /\ (requests (trace w) = [] \/ requests (trace w) = ["/orders"])
  /\ (In ClearCart (trace w) <-> In (Resolved "/orders") (trace w)).
Proof.
  run_flow_as w address cart.
  all: cbn; intuition congruence.
Qed.

Ltac in_trace H :=
  cbn in H; repeat (destruct H as [H | H]; try discriminate H); try contradiction.

(** X5: whenever the payment UI is opened, its options carry the key,
    amount, currency and order id of the payment intent the server returned
    for the grand total, and the name and phone of the shipping address as
    prefill; the UI opened is the one of the platform. *)
Theorem payment_ui_options_from_intent
    (env : Env) (address : ShippingAddress) (pm : PaymentMethod)
    (cart : CartStore.CartState) (p : Platform) (o : Razorpay.Options) :
  In (Open p o) (trace (checkout env address pm cart)) ->
  exists intent,
    post_payments_create_order env (grandTotal (CartStore.total cart)) = inr intent
    /\ Razorpay.key o = Payments.key_id intent
    /\ Razorpay.amount o = Payments.amount intent
    /\ Razorpay.currency o = Payments.currency intent
    /\ Razorpay.order_id o = Payments.razorpay_order_id intent
    /\ Razorpay.prefill_name o = full_name address
    /\ Razorpay.prefill_contact o = phone address
    /\ p = OS env.
Proof.
  run_flow address cart.
  all: intros Hin; in_trace Hin.
  all: injection Hin as <- <-; eexists; split; [reflexivity |]; cbn; repeat split; congruence.
Qed.

(** The native payment UI of the sample checkout. *)
Lemma payment_ui_options_native :
  exists o,
    In (Open native o)
       (trace (checkout (Sample.happy native) Sample.address razorpay Sample.cart))
    /\ Razorpay.amount o = 409900
    /\ Razorpay.prefill_contact o = "9876543210".
Proof.
  eexists. split; [vm_compute; right; right; right; right; right; left; reflexivity |].
  pose proof (payment_ui_options_from_intent (Sample.happy native) Sample.address razorpay
                Sample.cart native _
                (or_intror (or_intror (or_intror (or_intror (or_intror (or_introl eq_refl)))))))
    as (intent & Hi & _ & Ha & _ & _ & _ & Hc & _).
  injection Hi as <-. split; [exact Ha | exact Hc].
Defined.

(** X6: the verify request forwards the payment UI's result unchanged:
    its order id, payment id and signature are those of the success result
    the payment UI of this platform returned in the same execution. *)
Theorem verify_forwards_gateway_result
    (env : Env) (address : ShippingAddress) (pm : PaymentMethod)
    (cart : CartStore.CartState) (body : Body) :
  let w := checkout env address pm cart in
  In (Post "/payments/verify" body) (trace w) ->
  exists response,
    In (Paid (OS env) response) (trace w)
    /\ exists data,
         body = VerifyBody data
         /\ Payments.v_razorpay_order_id data = Payments.r_razorpay_order_id response
         /\ Payments.v_razorpay_payment_id data = Payments.r_razorpay_payment_id response
         /\ Payments.v_razorpay_signature data = Payments.r_razorpay_signature response.
Proof.
  run_flow_as w address cart.
  all: intros Hin; in_trace Hin.
  all: injection Hin as <-; eexists; split;
    [ cbn; try match goal with H : OS _ = _ |- _ => rewrite H end; auto 20
    | eexists; repeat split ].
Qed.

(** X7: when POST /orders is rejected the one alert is "Error" with the
    server's [detail] when it has a non-empty one and "Failed to place
    order" otherwise; nothing else is requested, the cart is untouched and
    the button is enabled again. *)
Theorem order_rejection_alert
    (env : Env) (address : ShippingAddress) (pm : PaymentMethod)
    (cart : CartStore.CartState) (e : Js.Error) :
  let w := checkout env address pm cart in
  In (Rejected "/orders" e) (trace w) ->
  filter is_alert (trace w)
    = [Alert "Error" (Js.or_else (Js.detail e) "Failed to place order") []]
  /\ requests (trace w) = ["/orders"]
  /\ store w = cart
  /\ loading w = false.
Proof.
  run_flow_as w address cart.
  all: intros Hin; in_trace Hin.
  all: injection Hin as <-; repeat split.
Qed.

(** X8: when the payment intent is rejected the order already exists,
    the one alert is "Failed to initiate payment. Please try again.", no
    payment result is ever received and the cart is untouched. *)
Theorem intent_rejection_alert
    (env : Env) (address : ShippingAddress) (pm : PaymentMethod)
    (cart : CartStore.CartState) (e : Js.Error) :
  let w := checkout env address pm cart in
  In (Rejected "/payments/create-order" e) (trace w) ->
  filter is_alert (trace w)
    = [Alert "Error" "Failed to initiate payment. Please try again." []]
  /\ requests (trace w) = ["/orders"; "/payments/create-order"]
  /\ In (Resolved "/orders") (trace w)
  /\ count is_paid (trace w) = 0%nat
  /\ store w = cart.
Proof.
  run_flow_as w address cart.
  all: intros Hin; in_trace Hin.
  all: repeat split; cbn; tauto.
Qed.

(** X9: on the native path a payment-UI error other than a cancellation
    raises "Payment Failed" with the gateway's description when it has a
    non-empty one and "Something went wrong" otherwise; no verify request
    is made and the cart is untouched. *)
Theorem native_gateway_error_alert
    (env : Env) (address : ShippingAddress) (pm : PaymentMethod)
    (cart : CartStore.CartState) (e : Js.Error) :
  let w := checkout env address pm cart in
  In (NotPaid native e) (trace w) ->
  Js.code e <> Some "PAYMENT_CANCELLED" ->
  filter is_alert (trace w)
    = [Alert "Payment Failed"
         (Js.or_else (Js.description e) "Something went wrong") []]
  /\ count (is_post "/payments/verify") (trace w) = 0%nat
  /\ store w = cart.
Proof.
  run_flow_as w address cart.
  all: intros Hin Hcode; in_trace Hin.
  all: injection Hin as <-.
  all: try (exfalso; apply Hcode;
            destruct (Js.code e0) as [c |]; [| discriminate];
            cbn in *; f_equal; apply String.eqb_eq;
            match goal with H : negb _ = false |- _ =>
              apply negb_false_iff in H; exact H end).
  all: repeat split.
Qed.

(** X10: on the web path a payment that ends without success, whatever
    the error, raises no alert at all: the execution ends after the payment
    intent with the cart untouched. *)
Theorem web_payment_failure_is_silent
    (env : Env) (address : ShippingAddress) (pm : PaymentMethod)
    (cart : CartStore.CartState) (e : Js.Error) :
  let w := checkout env address pm cart in
  In (NotPaid web e) (trace w) ->
  count is_alert (trace w) = 0%nat
  /\ requests (trace w) = ["/orders"; "/payments/create-order"]
  /\ store w = cart
  /\ loading w = false.
Proof.
  run_flow_as w address cart.
  all: intros Hin; in_trace Hin.
  all: repeat split.
Qed.

(** X12: a successful execution raises exactly one alert, titled by the
    payment method, whose message shows the first 8 characters of the id of
    the order the server returned and whose button leads to /order/<id>. *)
Theorem success_alert_links_order
    (env : Env) (address : ShippingAddress) (pm : PaymentMethod)
    (cart : CartStore.CartState) :
  let w := checkout env address pm cart in
  In ClearCart (trace w) ->
  exists order,
    post_orders env
      {| Orders.data_shipping_address := address;
         Orders.data_payment_method := literal pm |} = inr order
    /\ filter is_alert (trace w)
       = [Alert (match pm with cod => "Order Placed!" | razorpay => "Payment Successful!" end)
            ("Your order #" ++ Js.slice0 8 (Orders.id order)
               ++ " has been placed successfully.")
            [ViewOrder ("/order/" ++ Orders.id order)]].
Proof.
  run_flow_as w address cart.
  all: intros Hin; in_trace Hin.
  all: eexists; split; [eassumption | reflexivity].
Qed.

(** The verdict of [validateAddress] does not depend on the world. *)
Lemma validateAddress_verdict (a : ShippingAddress) :
  (forall w, validateAddress a w = (inr true, w)) \/
  (exists message, forall w, validateAddress a w = (inr false, refuse message w)).
Proof.
  unfold validateAddress.
  destruct (_ || _).
  - right. now eexists.
  - destruct (_ <? _)%nat.
    + right. now eexists.
    + destruct (negb _).
      * right. now eexists.
      * now left.
Qed.

Ltac flow_eval_keep_app :=
  cbv beta iota zeta delta
    [checkout place_order handlePlaceOrder handleRazorpayPayment handler
     drain run_task RazorpayCheckout_open_ createOrder createRazorpayOrder verifyPayment
     try_finally try_catch await require alert console_log setLoading clearCart
     appendScript emit bind ret throw refuse fresh
     store loading pending trace fst snd fold_left negb
     Razorpay.handler literal].

(** [handlePlaceOrder] only appends to the trace, and what it appends does
    not depend on what is already there. *)
Lemma place_order_appends
    (env : Env) (address : ShippingAddress) (pm : PaymentMethod) (total : Z)
    (cart : CartStore.CartState) (tr : list Event) :
  place_order env address pm total
    {| store := cart; loading := false; pending := []; trace := tr |}
  = {| store := store (place_order env address pm total (fresh cart));
       loading := false;
       pending := [];
       trace := (tr ++ trace (place_order env address pm total (fresh cart)))%list |}.
Proof.
  remember (place_order env address pm total (fresh cart)) as w0 eqn:E.
  revert E. unfold place_order, handlePlaceOrder, fresh.
  cbv beta delta [bind].
  destruct (validateAddress_verdict address) as [V | [message V]]; rewrite !V.
  all: intros ->.
  all: flow_eval_keep_app; cbn [app].
  all: repeat (break_match; flow_eval_keep_app; cbn [app]).
  all: repeat rewrite <- app_assoc; reflexivity.
Qed.

(** Where an execution leaves the screen: button enabled, nothing pending,
    and the cart either cleared or untouched. *)
Lemma checkout_final_world
    (env : Env) (address : ShippingAddress) (pm : PaymentMethod)
    (cart : CartStore.CartState) :
  let w := checkout env address pm cart in
  loading w = false /\ pending w = []
  /\ ((In ClearCart (trace w) /\ store w = CartStore.clearCart cart)
      \/ (~ In ClearCart (trace w) /\ store w = cart)).
Proof.
  run_flow_as w address cart.
  all: cbn; split; [reflexivity | split; [reflexivity |]].
  all: first [ left; split; [tauto | reflexivity]
             | right; split; [intuition congruence | reflexivity] ].
Qed.

Lemma requests_app (tr1 tr2 : list Event) :
  requests (tr1 ++ tr2) = (requests tr1 ++ requests tr2)%list.
Proof.
  induction tr1 as [| e tr1 IH]; [reflexivity |].
  destruct e; cbn; rewrite ?IH; reflexivity.
Qed.

(** X13: after a successful execution the screen renders its empty-cart
    view, so tapping the order button again, with whatever address, method
    and server behaviour, does nothing: no second order. *)
Theorem no_second_order_after_success
    (env : Env) (address : ShippingAddress) (pm : PaymentMethod)
    (cart : CartStore.CartState) :
  let w := checkout env address pm cart in
  In ClearCart (trace w) ->
  CheckoutScreen w = EmptyCartView
  /\ forall env' address' pm', tap_order_button env' address' pm' w = w.
Proof.
  intros w Hclear.
  destruct (checkout_final_world env address pm cart) as (_ & _ & [[_ Hs] | [Hn _]]);
    [| contradiction].
  fold w in Hs.
  assert (Hscreen : CheckoutScreen w = EmptyCartView)
    by (unfold CheckoutScreen; rewrite Hs; reflexivity).
  split; [exact Hscreen |].
  intros env' address' pm'. unfold tap_order_button. now rewrite Hscreen.
Qed.

(** X14: after an execution that did not clear a non-empty cart, a
    second tap runs the whole flow again from the same cart and appends its
    steps: in particular a valid retry sends POST /orders again, creating a
    new order for the same cart. *)
Theorem retry_repeats_order_creation
    (env env' : Env) (address address' : ShippingAddress) (pm pm' : PaymentMethod)
    (cart : CartStore.CartState) :
  let w := checkout env address pm cart in
  let w' := checkout env' address' pm' cart in
  CartStore.items cart <> [] ->
  ~ In ClearCart (trace w) ->
  tap_order_button env' address' pm' w
  = {| store := store w'; loading := false; pending := [];
       trace := (trace w ++ trace w')%list |}
  /\ requests (trace (tap_order_button env' address' pm' w))
     = (requests (trace w) ++ requests (trace w'))%list.
Proof.
  intros w w' Hitems Hkept.
  destruct (checkout_final_world env address pm cart) as (Hl & Hp & [[Hc _] | [_ Hs]]);
    [contradiction |].
  fold w in Hl, Hp, Hs.
  assert (Htap : tap_order_button env' address' pm' w
                 = {| store := store w'; loading := false; pending := [];
                      trace := (trace w ++ trace w')%list |}).
  { unfold tap_order_button, CheckoutScreen. rewrite Hs, Hl.
    destruct (CartStore.items cart) as [| item items]; [contradiction |].
    cbn [List.length Nat.eqb].
    destruct w as [s l p tr]; cbn in Hl, Hp, Hs; subst s l p.
    cbn [store trace].
    apply place_order_appends. }
  split; [exact Htap |].
  rewrite Htap. cbn [trace]. apply requests_app.
Qed.

Ltac not_in_trace := vm_compute; intros H; repeat (destruct H as [H | H]; try discriminate H); exact H.

(** X11: on the web, when [window] is undefined or checkout.js never
    loads, the payment UI is never opened: no payment result, no verify
    request, the cart of an online order stays as it was, and once the
    payment intent exists nothing is shown to the user. *)
Theorem web_without_widget_stalls_silently
    (env : Env) (address : ShippingAddress) (pm : PaymentMethod)
    (cart : CartStore.CartState) :
  let w := checkout env address pm cart in
  OS env = web ->
  window_defined env = false \/ script_loads env = false ->
  count is_open (trace w) = 0%nat
  /\ count is_paid (trace w) = 0%nat
  /\ count (is_post "/payments/verify") (trace w) = 0%nat
  /\ (pm = razorpay -> store w = cart)
  /\ (In (Resolved "/payments/create-order") (trace w) ->
        count is_alert (trace w) = 0%nat /\ loading w = false).
Proof.
  run_flow_as w address cart.
  all: intros Hos Hno; try discriminate Hos.
  all: try (destruct Hno as [Hno | Hno]; discriminate Hno).
  all: cbn; split; [reflexivity | split; [reflexivity | split; [reflexivity | split]]];
    [ intros Hpm; first [reflexivity | discriminate Hpm]
    | intros Hin; first [ split; reflexivity | exfalso; in_trace Hin ] ].
Qed.

(** checkout.js blocked on the web. *)
Lemma web_without_widget_example :
  OS Scenario.script_blocked = web
  /\ (window_defined Scenario.script_blocked = false
      \/ script_loads Scenario.script_blocked = false)
  /\ count is_alert
       (trace (checkout Scenario.script_blocked Sample.address razorpay Sample.cart))
     = 0%nat.
Proof.
  split; [reflexivity |]. split; [right; reflexivity |].
  apply (web_without_widget_stalls_silently Scenario.script_blocked Sample.address
           razorpay Sample.cart eq_refl (or_intror eq_refl)).
  vm_compute; tauto.
Defined.

(** The verify request of the sample web checkout. *)
Lemma verify_forwards_gateway_example :
  In (Post "/payments/verify"
        (VerifyBody {| Payments.v_razorpay_order_id := "order_X";
                       Payments.v_razorpay_payment_id := "pay_1";
                       Payments.v_razorpay_signature := "sig";
                       Payments.v_order_id := "0123456789abcdef" |}))
     (trace (checkout (Sample.happy web) Sample.address razorpay Sample.cart))
  /\ exists response,
       In (Paid web response)
          (trace (checkout (Sample.happy web) Sample.address razorpay Sample.cart)).
Proof.
  assert (Hin : In (Post "/payments/verify"
        (VerifyBody {| Payments.v_razorpay_order_id := "order_X";
                       Payments.v_razorpay_payment_id := "pay_1";
                       Payments.v_razorpay_signature := "sig";
                       Payments.v_order_id := "0123456789abcdef" |}))
     (trace (checkout (Sample.happy web) Sample.address razorpay Sample.cart)))
    by (vm_compute; tauto).
  split; [exact Hin |].
  destruct (verify_forwards_gateway_result (Sample.happy web) Sample.address razorpay
              Sample.cart _ Hin) as (response & Hpaid & _).
  exists response. exact Hpaid.
Defined.

(** The server refuses the order and says why. *)
Lemma order_rejection_example :
  In (Rejected "/orders" Scenario.out_of_stock)
     (trace (checkout (Scenario.order_rejected native) Sample.address cod Sample.cart))
  /\ filter is_alert
       (trace (checkout (Scenario.order_rejected native) Sample.address cod Sample.cart))
     = [Alert "Error" "Cement 50kg is out of stock" []].
Proof.
  assert (Hin : In (Rejected "/orders" Scenario.out_of_stock)
     (trace (checkout (Scenario.order_rejected native) Sample.address cod Sample.cart)))
    by (vm_compute; tauto).
  split; [exact Hin |].
  exact (proj1 (order_rejection_alert (Scenario.order_rejected native) Sample.address cod
                  Sample.cart Scenario.out_of_stock Hin)).
Defined.

(** The payment intent is refused on the web. *)
Lemma intent_rejection_example :
  In (Rejected "/payments/create-order" Sample.bad_request)
     (trace (checkout (Scenario.intent_rejected web) Sample.address razorpay Sample.cart))
  /\ store (checkout (Scenario.intent_rejected web) Sample.address razorpay Sample.cart)
     = Sample.cart.
Proof.
  assert (Hin : In (Rejected "/payments/create-order" Sample.bad_request)
     (trace (checkout (Scenario.intent_rejected web) Sample.address razorpay Sample.cart)))
    by (vm_compute; tauto).
  split; [exact Hin |].
  apply (intent_rejection_alert (Scenario.intent_rejected web) Sample.address razorpay
           Sample.cart Sample.bad_request Hin).
Defined.

(** A gateway error without description on the native path. *)
Lemma native_gateway_error_example :
  In (NotPaid native Sample.gateway_error)
     (trace (checkout (Sample.gateway_fails native) Sample.address razorpay Sample.cart))
  /\ Js.code Sample.gateway_error <> Some "PAYMENT_CANCELLED"
  /\ filter is_alert
       (trace (checkout (Sample.gateway_fails native) Sample.address razorpay Sample.cart))
     = [Alert "Payment Failed" "Something went wrong" []].
Proof.
  assert (Hin : In (NotPaid native Sample.gateway_error)
     (trace (checkout (Sample.gateway_fails native) Sample.address razorpay Sample.cart)))
    by (vm_compute; tauto).
  assert (Hcode : Js.code Sample.gateway_error <> Some "PAYMENT_CANCELLED")
    by discriminate.
  split; [exact Hin | split; [exact Hcode |]].
  exact (proj1 (native_gateway_error_alert (Sample.gateway_fails native) Sample.address
                  razorpay Sample.cart Sample.gateway_error Hin Hcode)).
Defined.

(** The same gateway error on the web path. *)
Lemma web_payment_failure_example :
  In (NotPaid web Sample.gateway_error)
     (trace (checkout (Sample.gateway_fails web) Sample.address razorpay Sample.cart))
  /\ count is_alert
       (trace (checkout (Sample.gateway_fails web) Sample.address razorpay Sample.cart))
     = 0%nat.
Proof.
  assert (Hin : In (NotPaid web Sample.gateway_error)
     (trace (checkout (Sample.gateway_fails web) Sample.address razorpay Sample.cart)))
    by (vm_compute; tauto).
  split; [exact Hin |].
  exact (proj1 (web_payment_failure_is_silent (Sample.gateway_fails web) Sample.address
                  razorpay Sample.cart Sample.gateway_error Hin)).
Defined.

(** The alert of the sample COD checkout. *)
Lemma success_alert_example :
  In ClearCart (trace (checkout (Sample.happy native) Sample.address cod Sample.cart))
  /\ exists order,
       filter is_alert
         (trace (checkout (Sample.happy native) Sample.address cod Sample.cart))
       = [Alert "Order Placed!"
            ("Your order #" ++ Js.slice0 8 (Orders.id order)
               ++ " has been placed successfully.")
            [ViewOrder ("/order/" ++ Orders.id order)]].
Proof.
  assert (Hin : In ClearCart
     (trace (checkout (Sample.happy native) Sample.address cod Sample.cart)))
    by (vm_compute; tauto).
  split; [exact Hin |].
  destruct (success_alert_links_order (Sample.happy native) Sample.address cod
              Sample.cart Hin) as (order & _ & Halert).
  exists order. exact Halert.
Defined.

(** After the sample web checkout. *)
Lemma no_second_order_example :
  In ClearCart (trace (checkout (Sample.happy web) Sample.address razorpay Sample.cart))
  /\ CheckoutScreen (checkout (Sample.happy web) Sample.address razorpay Sample.cart)
     = EmptyCartView.
Proof.
  assert (Hin : In ClearCart
     (trace (checkout (Sample.happy web) Sample.address razorpay Sample.cart)))
    by (vm_compute; tauto).
  split; [exact Hin |].
  exact (proj1 (no_second_order_after_success (Sample.happy web) Sample.address razorpay
                  Sample.cart Hin)).
Defined.

(** Paying successfully after a cancelled attempt. *)
Lemma retry_after_cancel_example :
  CartStore.items Sample.cart <> []
  /\ ~ In ClearCart
        (trace (checkout (Sample.user_cancels native) Sample.address razorpay Sample.cart))
  /\ requests
       (trace (tap_order_button (Sample.happy native) Sample.address razorpay
                 (checkout (Sample.user_cancels native) Sample.address razorpay
                    Sample.cart)))
     = (requests
          (trace (checkout (Sample.user_cancels native) Sample.address razorpay
                    Sample.cart))
        ++ requests
             (trace (checkout (Sample.happy native) Sample.address razorpay
                       Sample.cart)))%list.
Proof.
  assert (Hitems : CartStore.items Sample.cart <> []) by discriminate.
  assert (Hkept : ~ In ClearCart
        (trace (checkout (Sample.user_cancels native) Sample.address razorpay Sample.cart)))
    by not_in_trace.
  split; [exact Hitems | split; [exact Hkept |]].
  exact (proj2 (retry_repeats_order_creation (Sample.user_cancels native)
                  (Sample.happy native) Sample.address Sample.address razorpay razorpay
                  Sample.cart Hitems Hkept)).
Defined.

(* ================================================================= *)
(** ** The product and cart screens *)

Open Scope list_scope.

Ltac shop_eval :=
  cbv beta iota zeta delta
    [Shop.handleAddToCart Shop.handleBuyNow Shop.loadCart Shop.onRefresh
     Shop.handleUpdateQuantity Shop.handleRemoveItem Shop.clearConfirmed
     Shop.handleClearCart Shop.handleCheckout
     Shop.getCart Shop.addToCart Shop.updateCartItem Shop.removeFromCart
     Shop.clearCart_api Shop.getOrders Shop.loadOrders Shop.onRefreshOrders
     Shop.settle Shop.say Shop.update Shop.setCart Shop.clearCart
     Shop.setAddingToCart Shop.setLoading Shop.setRefreshing
     Shop.set_store Shop.set_addingToCart Shop.set_loading Shop.set_refreshing
     Shop.set_orders Shop.set_ordersLoading Shop.set_ordersRefreshing Shop.record
     Shop.ensuring Shop.attempt Shop.andThen Shop.pure Shop.raise
     Shop.store Shop.addingToCart Shop.quantity Shop.loading Shop.refreshing
     Shop.orders Shop.ordersLoading Shop.ordersRefreshing
     Shop.history fst snd negb].

Ltac shop_run :=
  shop_eval; repeat (break_match; shop_eval);
  repeat rewrite <- app_assoc; cbn [app].

Lemma Shop_calls_app (h1 h2 : list Shop.Act) :
  Shop.calls (h1 ++ h2) = Shop.calls h1 ++ Shop.calls h2.
Proof.
  induction h1 as [| a h1 IH]; [reflexivity |].
  destruct a; cbn; rewrite ?IH; reflexivity.
Qed.

Ltac in_history H :=
  apply in_app_or in H; destruct H as [H | H];
  [| cbn in H; repeat (destruct H as [H | H]; try discriminate H); try contradiction ].

(** The calls [handleAddToCart] makes are its own: it never throws, leaves
    the quantity alone, and any call with a body that it adds to the
    history is the POST of this product and this quantity. *)
Lemma handleAddToCart_calls
    (srv : Shop.Server) (token : option string) (pid : string) (q : Z) (s : Shop.State) :
  let s' := snd (Shop.handleAddToCart srv token pid q s) in
  fst (Shop.handleAddToCart srv token pid q s) = inr tt
  /\ Shop.quantity s' = Shop.quantity s
  /\ forall m path pid' q',
       In (Shop.Call m path (Shop.ItemPayload pid' q')) (Shop.history s') ->
       In (Shop.Call m path (Shop.ItemPayload pid' q')) (Shop.history s)
       \/ (m = Shop.POST /\ path = "/cart/add" /\ pid' = pid /\ q' = q).
Proof.
  shop_run.
  all: split; [reflexivity | split; [reflexivity |]].
  all: intros m path pid' q' H; in_history H; auto.
  all: injection H as <- <- <- <-; auto.
Qed.

Lemma handleBuyNow_calls
    (srv : Shop.Server) (token : option string) (pid : string) (q : Z) (s : Shop.State) :
  let s' := snd (Shop.handleBuyNow srv token pid q s) in
  Shop.quantity s' = Shop.quantity s
  /\ forall m path pid' q',
       In (Shop.Call m path (Shop.ItemPayload pid' q')) (Shop.history s') ->
       In (Shop.Call m path (Shop.ItemPayload pid' q')) (Shop.history s)
       \/ (m = Shop.POST /\ path = "/cart/add" /\ pid' = pid /\ q' = q).
Proof.
  shop_run.
  all: split; [reflexivity |].
  all: intros m path pid' q' H; in_history H; auto.
  all: injection H as <- <- <- <-; auto.
Qed.

Lemma detail_tap_ok
    (token : option string) (product_id : string) (stock : Z)
    (t : Shop.DetailTap) (s : Shop.State) :
  detail_ok product_id stock s ->
  detail_ok product_id stock (Shop.detail_tap token product_id stock t s).
Proof.
  intros [Hq Hcalls]. destruct t as [| | srv | srv]; cbn [Shop.detail_tap].
  - split; [cbn; lia | exact Hcalls].
  - split; [cbn; lia | exact Hcalls].
  - destruct (Shop.addingToCart s || (stock =? 0)) eqn:Hdis; [now split |].
    apply orb_false_iff in Hdis as [_ Hstock]. apply Z.eqb_neq in Hstock.
    destruct (handleAddToCart_calls srv token product_id (Shop.quantity s) s)
      as (_ & Hsame & Hnew).
    split; [rewrite Hsame; exact Hq |].
    intros m path pid q Hin.
    destruct (Hnew m path pid q Hin) as [Hold | (-> & -> & -> & ->)]; auto.
  - destruct (Shop.addingToCart s || (stock =? 0)) eqn:Hdis; [now split |].
    apply orb_false_iff in Hdis as [_ Hstock]. apply Z.eqb_neq in Hstock.
    destruct (handleBuyNow_calls srv token product_id (Shop.quantity s) s)
      as (Hsame & Hnew).
    split; [rewrite Hsame; exact Hq |].
    intros m path pid q Hin.
    destruct (Hnew m path pid q Hin) as [Hold | (-> & -> & -> & ->)]; auto.
Qed.

Lemma detail_taps_ok
    (token : option string) (product_id : string) (stock : Z)
    (taps : list Shop.DetailTap) :
  forall s, detail_ok product_id stock s ->
            detail_ok product_id stock (Shop.detail_taps token product_id stock taps s).
Proof.
  induction taps as [| t taps IH]; intros s Hs; [exact Hs |].
  cbn [Shop.detail_taps fold_left]. apply IH. now apply detail_tap_ok.
Qed.

(** X15: whatever the user taps on the product screen, and whatever the server
    answers, the quantity stays between 1 and the stock (for a stock of at
    least 1), and every request that carries a quantity is a POST /cart/add
    for the product on screen with a quantity in that range; with a stock
    of 0 no such request is sent at all. *)
Theorem quantity_stays_within_stock
    (token : option string) (product_id : string) (stock : Z)
    (taps : list Shop.DetailTap) (cart : CartStore.CartState) :
  let s := Shop.detail_taps token product_id stock taps (Shop.start cart) in
  Z.min 1 stock <= Shop.quantity s <= Z.max 1 stock
  /\ (1 <= stock -> 1 <= Shop.quantity s <= stock)
  /\ (forall m path pid q,
        In (Shop.Call m path (Shop.ItemPayload pid q)) (Shop.history s) ->
        m = Shop.POST /\ path = "/cart/add" /\ pid = product_id
        /\ stock <> 0 /\ Z.min 1 stock <= q <= Z.max 1 stock).
Proof.
  intros s.
  assert (H : detail_ok product_id stock s).
  { apply detail_taps_ok. split; [cbn; lia | intros m path pid q []]. }
  destruct H as [Hq Hcalls].
  split; [exact Hq | split; [lia | exact Hcalls]].
Qed.

(** X16: with nothing in stock the "+" button pulls the quantity down to the
    stock: to 0 for a product that is out of stock. *)
Theorem plus_without_stock_drops_quantity
    (token : option string) (product_id : string) (stock : Z)
    (taps : list Shop.DetailTap) (cart : CartStore.CartState) :
  stock <= 0 ->
  Shop.quantity
    (Shop.detail_tap token product_id stock Shop.TapPlus
       (Shop.detail_taps token product_id stock taps (Shop.start cart)))
  = stock.
Proof.
  intros Hstock.
  assert (H : detail_ok product_id stock
                (Shop.detail_taps token product_id stock taps (Shop.start cart))).
  { apply detail_taps_ok. split; [cbn; lia | intros m path pid q []]. }
  destruct H as [Hq _]. cbn. lia.
Qed.

(** An out-of-stock product. *)
Lemma plus_without_stock_example :
  (0 <= 0)
  /\ Shop.quantity
       (Shop.detail_tap (Some "jwt") "p1" 0 Shop.TapPlus
          (Shop.detail_taps (Some "jwt") "p1" 0 [Shop.TapMinus] (Shop.start Sample.cart)))
     = 0.
Proof.
  split; [lia |].
  exact (plus_without_stock_drops_quantity (Some "jwt") "p1" 0 [Shop.TapMinus]
           Sample.cart (Z.le_refl 0)).
Defined.

(** X17: [handleAddToCart]: a guest gets the login dialog and nothing is sent.
    For a logged-in user the local cart is replaced by the server's cart
    exactly when both POST /cart/add and GET /cart resolve; a rejected POST
    is not followed by a GET; and when the POST resolves but the GET is
    rejected the user is told "Failed to add item to cart" although the
    server has accepted the item.  [addingToCart] ends [false]. *)
Theorem add_to_cart_syncs_with_server
    (srv : Shop.Server) (token : option string) (pid : string) (q : Z) (s : Shop.State) :
  let s' := snd (Shop.handleAddToCart srv token pid q s) in
  (Shop.logged_in token = false ->
     Shop.store s' = Shop.store s
     /\ Shop.calls (Shop.history s') = Shop.calls (Shop.history s)
     /\ Shop.history s'
        = Shop.history s
          ++ [Shop.Dialog "Login Required" "Please login to add items to cart"
                [("Cancel", Shop.NoHandler); ("Login", Shop.RouterPush "/login")]])
  /\ (Shop.logged_in token = true ->
        Shop.addingToCart s' = false
        /\ (forall e, Shop.cart_add srv pid q = inl e ->
              Shop.store s' = Shop.store s
              /\ Shop.history s'
                 = Shop.history s
                   ++ [Shop.Call Shop.POST "/cart/add" (Shop.ItemPayload pid q);
                       Shop.Err "/cart/add" e;
                       Shop.Console "Error adding to cart:";
                       Shop.Dialog "Error" "Failed to add item to cart" []])
        /\ (forall e, Shop.cart_add srv pid q = inr tt -> Shop.cart_get srv = inl e ->
              Shop.store s' = Shop.store s
              /\ Shop.history s'
                 = Shop.history s
                   ++ [Shop.Call Shop.POST "/cart/add" (Shop.ItemPayload pid q);
                       Shop.Ok "/cart/add";
                       Shop.Call Shop.GET "/cart" Shop.NoPayload;
                       Shop.Err "/cart" e;
                       Shop.Console "Error adding to cart:";
                       Shop.Dialog "Error" "Failed to add item to cart" []])
        /\ (forall cart, Shop.cart_add srv pid q = inr tt -> Shop.cart_get srv = inr cart ->
              Shop.store s' = {| CartStore.items := Shop.items cart;
                                 CartStore.total := Shop.total cart |}
              /\ Shop.history s'
                 = Shop.history s
                   ++ [Shop.Call Shop.POST "/cart/add" (Shop.ItemPayload pid q);
                       Shop.Ok "/cart/add";
                       Shop.Call Shop.GET "/cart" Shop.NoPayload;
                       Shop.Ok "/cart";
                       Shop.Dialog "Success" "Item added to cart!" []])).
Proof.
  shop_run.
  all: cbn; split; [intros Hguest | intros Huser]; try discriminate.
  all: repeat split; try reflexivity; intros; try congruence.
  all: try (rewrite Shop_calls_app; cbn; now rewrite app_nil_r).
  all: match goal with H : inr _ = inr ?c |- _ => is_var c; injection H as -> end; reflexivity.
Qed.

(** X18: [handleBuyNow]: a logged-in user is sent to /checkout whatever became
    of the add, also when POST /cart/add was rejected and the cart is
    as it was; a guest only gets the login dialog. *)
Theorem buy_now_navigates_whatever_the_add_did
    (srv : Shop.Server) (token : option string) (pid : string) (q : Z) (s : Shop.State) :
  let added := snd (Shop.handleAddToCart srv token pid q s) in
  let s' := snd (Shop.handleBuyNow srv token pid q s) in
  (Shop.logged_in token = true ->
     Shop.history s' = Shop.history added ++ [Shop.Navigate "/checkout"]
     /\ Shop.store s' = Shop.store added
     /\ (forall e, Shop.cart_add srv pid q = inl e ->
           Shop.store s' = Shop.store s
           /\ In (Shop.Dialog "Error" "Failed to add item to cart" []) (Shop.history s')))
  /\ (Shop.logged_in token = false ->
        s' = added
        /\ forall route, In (Shop.Navigate route) (Shop.history s') ->
                         In (Shop.Navigate route) (Shop.history s)).
Proof.
  shop_run.
  all: cbn; split; [intros Huser | intros Hguest]; try discriminate.
  all: repeat split; try reflexivity; try (intros; congruence).
  all: try (intros e' He'; split; [reflexivity |]; apply in_or_app; right; cbn; tauto).
  all: try (intros route Hin; in_history Hin; exact Hin).
  all: apply in_or_app; right; cbn; tauto.
Qed.

(** X19: changing a quantity or removing an item on the cart screen: the local
    cart changes only when the mutation and the GET /cart after it both
    resolve, and then to the server's cart; a rejected mutation is not
    followed by a GET; no alert is ever raised, so a failure is silent. *)
Theorem cart_mutations_wait_for_server
    (srv : Shop.Server) (pid : string) (q : Z) (s : Shop.State) :
  let updated := snd (Shop.handleUpdateQuantity srv pid q s) in
  let removed := snd (Shop.handleRemoveItem srv pid s) in
  (Shop.store updated
     = match Shop.cart_update srv pid q, Shop.cart_get srv with
       | inr _, inr cart => {| CartStore.items := Shop.items cart;
                               CartStore.total := Shop.total cart |}
       | _, _ => Shop.store s
       end
   /\ Shop.calls (Shop.history updated)
      = Shop.calls (Shop.history s)
        ++ (Shop.PUT, "/cart/update")
           :: match Shop.cart_update srv pid q with
              | inr _ => [(Shop.GET, "/cart")]
              | inl _ => []
              end
   /\ filter Shop.is_dialog (Shop.history updated) = filter Shop.is_dialog (Shop.history s))
  /\ (Shop.store removed
        = match Shop.cart_remove srv pid, Shop.cart_get srv with
          | inr _, inr cart => {| CartStore.items := Shop.items cart;
                                  CartStore.total := Shop.total cart |}
          | _, _ => Shop.store s
          end
      /\ Shop.calls (Shop.history removed)
         = Shop.calls (Shop.history s)
           ++ (Shop.DELETE, "/cart/remove/" ++ pid)%string
              :: match Shop.cart_remove srv pid with
                 | inr _ => [(Shop.GET, "/cart")]
                 | inl _ => []
                 end
      /\ filter Shop.is_dialog (Shop.history removed) = filter Shop.is_dialog (Shop.history s)).
Proof.
  shop_run.
  all: cbn [Shop.store Shop.history];
    rewrite ?Shop_calls_app, ?filter_app; cbn; rewrite ?app_nil_r;
    repeat split; reflexivity.
Qed.

(** X20: "Clear All": the local cart is emptied exactly when the user confirms
    and DELETE /cart/clear resolves; on "Cancel" nothing is sent, and when
    the server rejects the call the cart stays as it was and nothing tells
    the user. *)
Theorem clear_all_needs_server_ack
    (token : option string) (answer : option Shop.Server) (s : Shop.State) :
  Shop.CartScreen token s = Shop.CartList ->
  let s' := Shop.cart_tap token (Shop.ClearAll answer) s in
  Shop.store s'
    = match answer with
      | Some srv => match Shop.cart_clear srv with
                    | inr _ => CartStore.initial
                    | inl _ => Shop.store s
                    end
      | None => Shop.store s
      end
  /\ Shop.calls (Shop.history s')
     = Shop.calls (Shop.history s)
       ++ match answer with
          | Some _ => [(Shop.DELETE, "/cart/clear")]
          | None => []
          end
  /\ filter Shop.is_dialog (Shop.history s')
     = filter Shop.is_dialog (Shop.history s)
       ++ [Shop.Dialog "Clear Cart" "Are you sure you want to clear your cart?"
             [("Cancel", Shop.NoHandler); ("Clear", Shop.ClearConfirmed)]].
Proof.
  intros Hview s'. subst s'. unfold Shop.cart_tap. rewrite Hview.
  destruct answer as [srv |]; shop_run.
  all: cbn [Shop.store Shop.history];
    rewrite ?Shop_calls_app, ?filter_app; cbn; rewrite ?app_nil_r;
    repeat split; reflexivity.
Qed.

(** The user confirms and the server clears the cart. *)
Lemma clear_all_confirmed_example :
  Shop.CartScreen (Some "jwt") (Shop.start Sample.cart) = Shop.CartList
  /\ Shop.store (Shop.cart_tap (Some "jwt") (Shop.ClearAll (Some Scenario.server))
                   (Shop.start Sample.cart))
     = CartStore.initial.
Proof.
  split; [reflexivity |].
  exact (proj1 (clear_all_needs_server_ack (Some "jwt") (Some Scenario.server)
                  (Shop.start Sample.cart) eq_refl)).
Defined.

Lemma skipn_own_length {A} (l more : list A) :
  skipn (List.length l) (l ++ more) = more.
Proof. induction l as [| x l IH]; [reflexivity | exact IH]. Qed.

Lemma skipn_whole {A} (l : list A) : skipn (List.length l) l = [].
Proof. rewrite <- (app_nil_r l) at 2. apply skipn_own_length. Qed.

(** One tap changes the local cart by its syncs and by nothing else. *)
Lemma cart_tap_store (token : option string) (t : Shop.CartTap) (s : Shop.State) :
  Shop.store (Shop.cart_tap token t s)
  = fold_left apply_sync (tap_syncs token t s) (Shop.store s).
Proof.
  unfold tap_syncs, tap_history.
  set (P := fun s' : Shop.State =>
              Shop.store s'
              = fold_left apply_sync
                  (flat_map
                     (fun srv =>
                        (if existsb (is_ok "/cart")
                              (skipn (List.length (Shop.history s)) (Shop.history s'))
                         then match Shop.cart_get srv with
                              | inr cart => [Fetched cart]
                              | inl _ => []
                              end
                         else [])
                        ++ (if existsb (is_ok "/cart/clear")
                                 (skipn (List.length (Shop.history s)) (Shop.history s'))
                            then [Cleared] else []))
                     (Shop.server_of t))
                  (Shop.store s)).
  change (P (Shop.cart_tap token t s)).
  assert (Hidle : P s).
  { subst P. cbv beta. rewrite skipn_whole.
    destruct t as [? | ? ? | ? ? | ? ? | [? |] |]; reflexivity. }
  unfold Shop.cart_tap.
  destruct (Shop.CartScreen token s); try exact Hidle.
  destruct t as [srv | n srv | n srv | n srv | [srv |] |];
    try destruct (nth_error _ _); try exact Hidle; clear Hidle.
  all: destruct s as [st ad qu lo re ords ol orf h]; unfold Shop.handleCheckout.
  all: shop_run; subst P; cbv beta; cbn [Shop.store Shop.history Shop.server_of flat_map];
    rewrite ?skipn_own_length, ?skipn_whole; try reflexivity.
  all: cbn; match goal with H : _ = _ |- _ => rewrite ?H end; reflexivity.
Qed.

(** X21: over any sequence of taps on the cart screen, with any server
    outcomes, the local cart is never edited locally.  It is exactly what
    the syncs of the session make of the cart it started with, each sync
    either a cart that a GET /cart sent by a tap returned or the clearing
    that a DELETE /cart/clear sent by a tap acknowledged: so it is the
    starting cart, the empty cart after an acknowledged clearing, or a cart
    the server returned from a GET /cart of the session. *)
Theorem cart_screen_mirrors_server
    (token : option string) (taps : list Shop.CartTap) (s0 : Shop.State) :
  let s := Shop.cart_taps token taps s0 in
  Shop.store s = fold_left apply_sync (cart_syncs token taps s0) (Shop.store s0)
  /\ (Shop.store s = Shop.store s0
      \/ (In Cleared (cart_syncs token taps s0)
          /\ Shop.store s = {| CartStore.items := []; CartStore.total := 0 |})
      \/ exists cart,
           In (Fetched cart) (cart_syncs token taps s0)
           /\ Shop.store s
              = {| CartStore.items := Shop.items cart; CartStore.total := Shop.total cart |}).
Proof.
  cbv zeta.
  assert (Hfold : forall s0,
             Shop.store (Shop.cart_taps token taps s0)
             = fold_left apply_sync (cart_syncs token taps s0) (Shop.store s0)).
  { induction taps as [| t taps IH]; intros s; [reflexivity |].
    cbn [Shop.cart_taps fold_left cart_syncs].
    rewrite fold_left_app, <- cart_tap_store. apply IH. }
  split; [apply Hfold |].
  rewrite Hfold. generalize (cart_syncs token taps s0) (Shop.store s0).
  intros syncs. induction syncs as [| sync syncs IH] using rev_ind; intros local;
    [now left |].
  rewrite fold_left_app. cbn [fold_left]. right.
  destruct sync as [cart |]; cbn [apply_sync].
  - right. exists cart. split; [apply in_or_app; right; now left | reflexivity].
  - left. split; [apply in_or_app; right; now left | reflexivity].
Qed.

(** A tap whose GET /cart is never sent syncs nothing, whatever cart the
    server would have returned: the rejected update of the sample cart. *)
Example rejected_update_syncs_nothing :
  tap_syncs (Some "jwt")
    (Shop.ItemMinus 0
       {| Shop.cart_get := inr Scenario.cart;
          Shop.cart_add := fun _ _ => inr tt;
          Shop.cart_update := fun _ _ => inl Sample.bad_request;
          Shop.cart_remove := fun _ => inr tt;
          Shop.cart_clear := inr tt;
          Shop.orders_get := inr [] |})
    (Shop.start Sample.cart)
  = [].
Proof. reflexivity. Qed.

(** A tap the server accepts syncs the cart that its GET /cart returned;
    an acknowledged clearing syncs the empty cart. *)
Example accepted_update_syncs_the_fetched_cart :
  tap_syncs (Some "jwt") (Shop.ItemPlus 0 Scenario.server) (Shop.start Sample.cart)
  = [Fetched Scenario.cart]
  /\ tap_syncs (Some "jwt") (Shop.ClearAll (Some Scenario.server)) (Shop.start Sample.cart)
     = [Cleared].
Proof. split; reflexivity. Qed.

Lemma cart_list_has_items (token : option string) (s : Shop.State) :
  Shop.CartScreen token s = Shop.CartList ->
  (List.length (CartStore.items (Shop.store s)) =? 0)%nat = false.
Proof.
  unfold Shop.CartScreen.
  destruct (negb _); [discriminate |].
  destruct (Shop.loading s && _); [discriminate |].
  destruct (_ =? _)%nat; [discriminate | reflexivity].
Qed.

(** A tap on the cart screen never raises the "Empty Cart" alert. *)
Lemma cart_tap_no_empty_cart_alert
    (token : option string) (t : Shop.CartTap) (s : Shop.State) :
  filter is_empty_cart_alert (Shop.history (Shop.cart_tap token t s))
  = filter is_empty_cart_alert (Shop.history s).
Proof.
  unfold Shop.cart_tap.
  destruct (Shop.CartScreen token s) eqn:Hview; try reflexivity.
  pose proof (cart_list_has_items token s Hview) as Hitems.
  destruct t as [srv | n srv | n srv | n srv | [srv |] |];
    try destruct (nth_error _ _); try reflexivity.
  7: { unfold Shop.handleCheckout. rewrite Hitems.
       cbn. rewrite filter_app. cbn. now rewrite app_nil_r. }
  all: shop_run; cbn [Shop.history]; rewrite ?filter_app; cbn; now rewrite ?app_nil_r.
Qed.

(** X22: the "Empty Cart" alert of [handleCheckout] cannot be reached from the
    screen: "Proceed to Checkout" is rendered only with items in the cart.
    Whenever tapping it does anything, it navigates to /checkout and the
    checkout screen then renders its form, not its empty-cart view. *)
Theorem checkout_entered_only_with_items
    (token : option string) (taps : list Shop.CartTap) (cart : CartStore.CartState) :
  let s := Shop.cart_taps token taps (Shop.start cart) in
  let s' := Shop.cart_tap token Shop.ProceedToCheckout s in
  filter is_empty_cart_alert (Shop.history s') = []
  /\ (s' = s
      \/ (Shop.history s' = Shop.history s ++ [Shop.Navigate "/checkout"]
          /\ Shop.store s' = Shop.store s
          /\ CheckoutScreen (fresh (Shop.store s')) = CheckoutForm false)).
Proof.
  intros s s'. split.
  - subst s'. rewrite cart_tap_no_empty_cart_alert. subst s.
    generalize (Shop.start cart) (eq_refl : filter is_empty_cart_alert
                                             (Shop.history (Shop.start cart)) = []).
    induction taps as [| t taps IH]; intros s0 H0; [exact H0 |].
    cbn [Shop.cart_taps fold_left]. apply IH.
    now rewrite cart_tap_no_empty_cart_alert.
  - subst s'. unfold Shop.cart_tap.
    destruct (Shop.CartScreen token s) eqn:Hview; auto.
    right. pose proof (cart_list_has_items token s Hview) as Hitems.
    unfold Shop.handleCheckout. rewrite Hitems. cbn.
    repeat split. unfold CheckoutScreen. cbn. now rewrite Hitems.
Qed.




(** X24: loading the orders, on mount or on pull-to-refresh: the list becomes
    the server's list when GET /orders resolves and is kept when it is
    rejected; the spinner is gone afterwards and no alert is raised.  So on
    a first load that fails, the screen says "No orders yet". *)
Theorem orders_load_failure_is_silent (srv : Shop.Server) (s : Shop.State) :
  let loaded := snd (Shop.loadOrders srv s) in
  let refreshed := snd (Shop.onRefreshOrders srv s) in
  Shop.orders loaded
    = match Shop.orders_get srv with
      | inr data => data
      | inl _ => Shop.orders s
      end
  /\ Shop.ordersLoading loaded = false
  /\ filter Shop.is_dialog (Shop.history loaded) = filter Shop.is_dialog (Shop.history s)
  /\ Shop.orders refreshed = Shop.orders loaded
  /\ Shop.ordersRefreshing refreshed = false
  /\ Shop.history refreshed = Shop.history loaded
  /\ (forall e, Shop.orders s = [] -> Shop.orders_get srv = inl e ->
        Shop.OrdersScreen loaded = Shop.NoOrdersYet).
Proof.
  unfold Shop.OrdersScreen. shop_run.
  all: cbn [Shop.history Shop.orders Shop.ordersLoading Shop.ordersRefreshing];
    rewrite ?filter_app; cbn; rewrite ?app_nil_r;
    repeat split; try reflexivity; intros; try congruence.
  all: subst; first [reflexivity | cbn in *; discriminate].
Qed.

(** X25: the status colours tell the statuses apart: two statuses get the same
    colour only if they are the same known status, or if neither is one of
    pending, confirmed, shipped, delivered, cancelled (both then are grey).
    The comparison is exact, so "Pending" is not a known status. *)
Theorem status_colours_distinguish (s1 s2 : string) :
  (Shop.getStatusColor s1 = Shop.getStatusColor s2 ->
     (known_status s1 /\ s1 = s2) \/ (~ known_status s1 /\ ~ known_status s2))
  /\ (Shop.getStatusColor s1 = "#6B7280" <-> ~ known_status s1)
  /\ Shop.getStatusColor "Pending" = "#6B7280".
Proof.
  unfold Shop.getStatusColor, known_status.
  split; [| split; [| reflexivity]].
  - destruct (String.eqb_spec s1 "pending"), (String.eqb_spec s1 "confirmed"),
      (String.eqb_spec s1 "shipped"), (String.eqb_spec s1 "delivered"),
      (String.eqb_spec s1 "cancelled"); subst; try discriminate;
    destruct (String.eqb_spec s2 "pending"), (String.eqb_spec s2 "confirmed"),
      (String.eqb_spec s2 "shipped"), (String.eqb_spec s2 "delivered"),
      (String.eqb_spec s2 "cancelled"); subst; try discriminate;
    intros H; try discriminate H;
    first [ left; split; [cbn; tauto | reflexivity]
          | right; split; cbn; intuition congruence ].
  - destruct (String.eqb_spec s1 "pending"), (String.eqb_spec s1 "confirmed"),
      (String.eqb_spec s1 "shipped"), (String.eqb_spec s1 "delivered"),
      (String.eqb_spec s1 "cancelled"); subst; try discriminate;
    split; intros H; try discriminate H; cbn in *; intuition congruence.
Qed.


